(** * Vulkanize: scoped handles and device selection

  A shallow embedding of the two checkpoints of the walkthrough
  (src/Vulkanize/main.cpp and the later checkpoint with physical and
  logical device selection).  The class template [VDeleter], the
  validation-layer check, the debug callback and [main] are textually the
  same in both checkpoints; the later one adds [QueueFamilyIndices],
  [pickPhysicalDevice], [isDeviceSuitable], [findQueueFamilies] and
  [createLogicalDevice]. *)

From Stdlib Require Import ZArith NArith Ascii String Bool List Lia.
Import ListNotations.
Local Open Scope Z_scope.

Set Implicit Arguments.

(* ================================================================== *)
(** * The scoped handle [VDeleter<T>] *)
(* ================================================================== *)

Module VDeleter.
Section Template.

(** [template <typename T>]: the handle type, compared with [!=] and
    [==]; [VK_NULL_HANDLE] is the header's null value of that type. *)
Variable T : Type.
Variable T_eq_dec : forall x y : T, {x = y} + {x <> y}.
Variable VK_NULL_HANDLE : T.

(** What a member function does that can be seen from outside the
    wrapper: a call [deleter(v)] of the bound release function, or a
    write [object = v] of the private field. *)
Inductive event : Type :=
| Deleter (v : T)
| Store (v : T).

(** The wrapper's only data member is [T object{ VK_NULL_HANDLE }]; the
    bound [deleter] is fixed at construction and is observed through the
    [Deleter] events. *)
Record t : Type := Build { object : T }.

(** All constructors leave [object] at its member initializer. *)
Definition construct : t := Build VK_NULL_HANDLE.

(** [void cleanup()] *)
Definition cleanup (h : t) : t * list event :=
  ( Build VK_NULL_HANDLE,
    (if T_eq_dec (object h) VK_NULL_HANDLE then [] else [Deleter (object h)])
      ++ [Store VK_NULL_HANDLE] ).

(** [~VDeleter()] *)
Definition destroy (h : t) : t * list event := cleanup h.

(** [T* replace()]: the returned pointer is [&object]; the value it
    points to at the instant of return is the second component. *)
Definition replace (h : t) : t * T * list event :=
  let '(h', tr) := cleanup h in (h', object h', tr).

(** A write [*slot = v] through the pointer [replace()] returned, done by
    the out-parameter API the pointer was handed to. *)
Definition slot_write (v : T) (h : t) : t * list event :=
  (Build v, [Store v]).

(** [operator T() const] *)
Definition read (h : t) : T := object h.

(** [void operator=(T rhs)] *)
Definition assign (rhs : T) (h : t) : t * list event :=
  if T_eq_dec rhs (object h) then (h, [])
  else let '(h', tr) := cleanup h in (Build rhs, tr ++ [Store rhs]).

(** [bool operator==(V rhs)] *)
Definition equals (rhs : T) (h : t) : bool :=
  if T_eq_dec (object h) rhs then true else false.

(** The operations a client can apply to one wrapper over its lifetime. *)
Inductive op : Type :=
| Assign (rhs : T)
| Replace
| SlotWrite (v : T)
| Destroy.

Definition step (o : op) (h : t) : t * list event :=
  match o with
  | Assign rhs => assign rhs h
  | Replace => let '(h', _, tr) := replace h in (h', tr)
  | SlotWrite v => slot_write v h
  | Destroy => destroy h
  end.

Fixpoint run (ops : list op) (h : t) : t * list event :=
  match ops with
  | [] => (h, [])
  | o :: rest =>
      let '(h1, tr1) := step o h in
      let '(h2, tr2) := run rest h1 in
      (h2, tr1 ++ tr2)
  end.

(** The arguments of the [deleter] calls of a trace, in call order. *)
Fixpoint deleted (tr : list event) : list T :=
  match tr with
  | [] => []
  | Deleter v :: rest => v :: deleted rest
  | Store _ :: rest => deleted rest
  end.

(** The value of [object] after the writes of a trace. *)
Fixpoint held_after (cur : T) (tr : list event) : T :=
  match tr with
  | [] => cur
  | Deleter _ :: rest => held_after cur rest
  | Store v :: rest => held_after v rest
  end.

(** The next observable action is the write [object = VK_NULL_HANDLE]. *)
Definition reset_next (tr : list event) : Prop :=
  match tr with
  | Store n :: _ => n = VK_NULL_HANDLE
  | _ => False
  end.

(** A trace is disciplined from a held value [cur] when every [deleter]
    call is on the value held at that moment, which is not the null
    handle, and is followed at once by the write of the null handle. *)
Fixpoint disciplined (cur : T) (tr : list event) : Prop :=
  match tr with
  | [] => True
  | Store v :: rest => disciplined v rest
  | Deleter v :: rest =>
      v = cur /\ v <> VK_NULL_HANDLE /\ reset_next rest /\ disciplined cur rest
  end.

(* ---------------------------------------------------------------- *)
(** ** Lemmas *)

Lemma deleted_app (a b : list event) :
  deleted (a ++ b) = deleted a ++ deleted b.
Proof.
  induction a as [|[v|v] a IH]; simpl; auto. now rewrite IH.
Qed.

Lemma held_after_app (cur : T) (a b : list event) :
  held_after cur (a ++ b) = held_after (held_after cur a) b.
Proof.
  revert cur; induction a as [|[v|v] a IH]; simpl; intros; auto.
Qed.

Lemma disciplined_app (cur : T) (a b : list event) :
  disciplined cur a -> disciplined (held_after cur a) b ->
  disciplined cur (a ++ b).
Proof.
  revert cur. induction a as [|[v|v] a IH]; intros cur Ha Hb; simpl in *; auto.
  destruct Ha as (E & N & R & Ha). repeat split; auto.
  destruct a as [|[w|w] a']; simpl in *; tauto.
Qed.

Lemma disciplined_split (cur : T) (a b : list event) :
disciplined cur (a ++ b) -> disciplined (held_after cur a) b.
Proof.
revert cur. induction a as [|[v|v] a IH]; intros cur H; simpl in *; auto.
destruct H as (_ & _ & _ & H). auto.
Qed.

Lemma disciplined_deleted (cur : T) (tr : list event) :
disciplined cur tr -> forall x, In x (deleted tr) -> x <> VK_NULL_HANDLE.
Proof.
revert cur. induction tr as [|[v|v] tr IH]; intros cur H x Hin; simpl in *.
- contradiction.
- destruct H as (_ & N & _ & H). destruct Hin as [<-|Hin]; eauto.
- eauto.
Qed.

Lemma held_after_origin (cur w : T) (tr : list event) :
held_after cur tr = w -> w = cur \/ In (Store w) tr.
Proof.
revert cur. induction tr as [|[v|v] tr IH]; intros cur H; simpl in *; auto.
- destruct (IH _ H); auto.
- destruct (IH _ H) as [->|]; auto.
Qed.

Lemma cleanup_disciplined (h : t) :
disciplined (object h) (snd (cleanup h)) /\
held_after (object h) (snd (cleanup h)) = object (fst (cleanup h)).
Proof.
unfold cleanup; simpl.
destruct (T_eq_dec (object h) VK_NULL_HANDLE); simpl; auto.
Qed.

Lemma step_disciplined (o : op) (h : t) :
disciplined (object h) (snd (step o h)) /\
held_after (object h) (snd (step o h)) = object (fst (step o h)).
Proof.
destruct o as [rhs| |v|]; simpl.
- unfold assign. destruct (T_eq_dec rhs (object h)); simpl; auto.
  destruct (T_eq_dec (object h) VK_NULL_HANDLE); simpl; auto.
- unfold replace. destruct (T_eq_dec (object h) VK_NULL_HANDLE); simpl; auto.
- auto.
- apply cleanup_disciplined.
Qed.

Lemma run_disciplined (ops : list op) (h : t) :
disciplined (object h) (snd (run ops h)) /\
held_after (object h) (snd (run ops h)) = object (fst (run ops h)).
Proof.
revert h. induction ops as [|o ops IH]; intros h; simpl; auto.
destruct (step_disciplined o h) as [D1 E1].
destruct (step o h) as [h1 tr1]. simpl in D1, E1.
destruct (IH h1) as [D2 E2].
destruct (run ops h1) as [h2 tr2]. simpl in *.
rewrite held_after_app, E1. split; auto.
apply disciplined_app; auto. now rewrite E1.
Qed.

Lemma assign_destroy_deleted (v : T) (h : t) :
v <> VK_NULL_HANDLE ->
deleted (snd (run [Assign v; Destroy] h)) =
  (if T_eq_dec (object h) v then []
   else if T_eq_dec (object h) VK_NULL_HANDLE then [] else [object h]) ++ [v].
Proof.
intros Hv. simpl. unfold assign, destroy, cleanup.
destruct (T_eq_dec v (object h)) as [E|NE]; simpl.
- destruct (T_eq_dec (object h) v); [|congruence].
  destruct (T_eq_dec (object h) VK_NULL_HANDLE); [congruence|]. simpl. now subst.
- destruct (T_eq_dec (object h) v); [congruence|].
  destruct (T_eq_dec v VK_NULL_HANDLE); [congruence|].
  destruct (T_eq_dec (object h) VK_NULL_HANDLE); reflexivity.
Qed.

(** C1.  Assigning a non-empty value [v] and then destroying the wrapper
    calls the release function exactly once with [v] (and, before it, once
    with a different non-empty value the wrapper held); assigning the same
    value twice in a row calls it at most once, the second assignment doing
    nothing.  Over any sequence of assign, replace, slot-write and destroy
    operations, from any state: the release function is never called on
    [VK_NULL_HANDLE], every call is on the value held at that moment, and
    two calls are always separated by a store of the second call's value, so
    no held value is released twice. *)
Theorem release_at_most_once_per_held_value (v : T) (h : t) (ops : list op) :
(v <> VK_NULL_HANDLE ->
   deleted (snd (run [Assign v; Destroy] construct)) = [v] /\
   count_occ T_eq_dec (deleted (snd (run [Assign v; Destroy] h))) v = 1%nat /\
   deleted (snd (destroy (fst (assign v h)))) = [v]) /\
((length (deleted (snd (run [Assign v; Assign v] h))) <= 1)%nat /\
   assign v (fst (assign v h)) = (fst (assign v h), [])) /\
(let tr := snd (run ops h) in
   (forall x, In x (deleted tr) -> x <> VK_NULL_HANDLE) /\
   (forall pre x post,
      tr = pre ++ Deleter x :: post -> held_after (object h) pre = x) /\
   (forall pre x mid y post,
      tr = pre ++ Deleter x :: mid ++ Deleter y :: post -> In (Store y) mid)).
Proof.
split; [|split].
- intros Hv. split; [|split].
  + rewrite assign_destroy_deleted by assumption. unfold construct; simpl.
    destruct (T_eq_dec VK_NULL_HANDLE v); auto.
    destruct (T_eq_dec VK_NULL_HANDLE VK_NULL_HANDLE); auto. congruence.
  + rewrite assign_destroy_deleted by assumption.
    destruct (T_eq_dec (object h) v) as [E|NE]; simpl.
    * destruct (T_eq_dec v v); congruence.
    * destruct (T_eq_dec (object h) VK_NULL_HANDLE); simpl.
      -- destruct (T_eq_dec v v); congruence.
      -- destruct (T_eq_dec (object h) v); [congruence|].
         destruct (T_eq_dec v v); congruence.
  + unfold assign, destroy, cleanup.
    destruct (T_eq_dec v (object h)) as [E|NE]; simpl.
    * rewrite <- E. destruct (T_eq_dec v VK_NULL_HANDLE); [congruence|reflexivity].
    * destruct (T_eq_dec v VK_NULL_HANDLE); [congruence|reflexivity].
- assert (E2 : assign v (fst (assign v h)) = (fst (assign v h), [])).
  { assert (Hobj : object (fst (assign v h)) = v).
    { unfold assign. destruct (T_eq_dec v (object h)); simpl; auto. }
    generalize dependent (fst (assign v h)). intros h1 Hobj.
    unfold assign. destruct (T_eq_dec v (object h1)); [reflexivity|congruence]. }
  split; [|exact E2].
  simpl. destruct (assign v h) as [h1 tr1] eqn:E1. simpl in E2. rewrite E2.
  rewrite !app_nil_r.
  unfold assign, cleanup in E1.
  destruct (T_eq_dec v (object h)); inversion E1; subst; simpl; auto.
  destruct (T_eq_dec (object h) VK_NULL_HANDLE); simpl; auto.
- intros tr. destruct (run_disciplined ops h) as [D _]. fold tr in D.
  split; [|split].
  + eapply disciplined_deleted; eauto.
  + intros pre x post E. rewrite E in D.
    apply disciplined_split in D. simpl in D. symmetry. tauto.
  + intros pre x mid y post E. rewrite E in D.
    apply disciplined_split in D. simpl in D.
    destruct D as (_ & _ & R & D).
    destruct mid as [|[w|w] mid']; simpl in R; try contradiction.
    subst w. simpl in D.
    apply disciplined_split in D. simpl in D.
    destruct D as (E' & N & _).
    right. symmetry in E'. destruct (held_after_origin _ _ E'); auto.
    congruence.
Qed.

(** C4, as the code has it.  [replace()] runs the guarded cleanup routine
    before returning the slot: the release function is called on the prior
    value when that value is not [VK_NULL_HANDLE] and is not called at all
    when it is; in both cases the last action is the reset of the field, the
    wrapper is empty after the call and the slot points to
    [VK_NULL_HANDLE] at the instant of return. *)
Theorem replace_releases_nonempty_prior (h : t) :
let '(h', slot, tr) := replace h in
(object h <> VK_NULL_HANDLE ->
   tr = [Deleter (object h); Store VK_NULL_HANDLE]) /\
(object h = VK_NULL_HANDLE -> tr = [Store VK_NULL_HANDLE]) /\
h' = construct /\ slot = VK_NULL_HANDLE /\ read h' = VK_NULL_HANDLE.
Proof.
unfold replace, cleanup, construct; simpl.
destruct (T_eq_dec (object h) VK_NULL_HANDLE); simpl; repeat split; auto;
  intros; congruence.
Qed.

(* ---------------------------------------------------------------- *)
(** ** Further properties of the wrapper *)

(** X1.  Assignment and the read operators agree: after [operator=(rhs)]
    the conversion [operator T()] yields [rhs] and [operator==(rhs)] is
    true, whatever the wrapper held; and [operator==] is true exactly for
    the value the conversion yields. *)
Theorem assign_then_read (rhs : T) (h : t) :
read (fst (assign rhs h)) = rhs /\
equals rhs (fst (assign rhs h)) = true /\
(forall v, equals v h = true <-> read h = v).
Proof.
assert (R : read (fst (assign rhs h)) = rhs).
{ unfold assign, read. destruct (T_eq_dec rhs (object h)); simpl; auto. }
split; [exact R|]. split.
- unfold equals. unfold read in R. rewrite R.
  destruct (T_eq_dec rhs rhs); congruence.
- intros v. unfold equals, read. destruct (T_eq_dec (object h) v);
    split; intros; congruence.
Qed.

(** X2.  Cleaning up twice releases once: after the destructor or
    [replace()] ran, the wrapper is empty and a further [replace()] or
    destruction calls the release function no more; and assigning
    [VK_NULL_HANDLE] releases exactly what destruction would release and
    leaves the wrapper empty. *)
Theorem cleanup_is_idempotent (h : t) :
deleted (snd (run [Destroy; Destroy] h)) = deleted (snd (destroy h)) /\
deleted (snd (run [Replace; Destroy] h)) = deleted (snd (destroy h)) /\
deleted (snd (run [Destroy; Replace] h)) = deleted (snd (destroy h)) /\
deleted (snd (assign VK_NULL_HANDLE h)) = deleted (snd (destroy h)) /\
object (fst (assign VK_NULL_HANDLE h)) = VK_NULL_HANDLE /\
object (fst (destroy h)) = VK_NULL_HANDLE.
Proof.
unfold assign, destroy, replace, cleanup; simpl.
unfold replace, destroy, cleanup; simpl.
destruct (T_eq_dec (object h) VK_NULL_HANDLE) as [E|NE];
  destruct (T_eq_dec VK_NULL_HANDLE VK_NULL_HANDLE); try congruence;
  destruct (T_eq_dec VK_NULL_HANDLE (object h)); try congruence;
  simpl; repeat split; auto.
Qed.

(** The two ways a client gives the wrapper a value: [wrapper = v], and
    handing [wrapper.replace()] to a call that writes [v] through it. *)
Inductive acquisition : Type :=
| ByAssign (v : T)
| ByReplace (v : T).

Definition acquire (a : acquisition) : list op :=
  match a with
  | ByAssign v => [Assign v]
  | ByReplace v => [Replace; SlotWrite v]
  end.

(** The values the wrapper holds over a sequence of acquisitions, the
    first being [cur]: an assignment of the value already held starts no
    new holding. *)
Fixpoint holdings (cur : T) (acqs : list acquisition) : list T :=
  match acqs with
  | [] => [cur]
  | ByAssign v :: rest =>
      if T_eq_dec v cur then holdings cur rest else cur :: holdings v rest
  | ByReplace v :: rest => cur :: holdings v rest
  end.

Definition nonempty (v : T) : bool :=
  if T_eq_dec v VK_NULL_HANDLE then false else true.

(** X3.  No leak and no double release: when values reach the wrapper
    only by assignment or through the slot of a fresh [replace()], and
    the wrapper is then destroyed, the release function is called on
    exactly the non-empty values the wrapper held, once for each holding
    and in the order they were held. *)
Theorem every_holding_released_once (acqs : list acquisition) (h : t) :
deleted (snd (run (flat_map acquire acqs ++ [Destroy]) h)) =
  filter nonempty (holdings (object h) acqs).
Proof.
revert h. induction acqs as [|[v|v] acqs IH]; intros h.
- simpl. unfold destroy, cleanup, nonempty. simpl.
  destruct (T_eq_dec (object h) VK_NULL_HANDLE); reflexivity.
- cbn [flat_map acquire holdings]. rewrite <- app_assoc.
  change ([Assign v] ++ flat_map acquire acqs ++ [Destroy])
    with (Assign v :: (flat_map acquire acqs ++ [Destroy])).
  cbn [run step]. unfold assign.
  destruct (T_eq_dec v (object h)) as [E|NE].
  + specialize (IH h).
    destruct (run (flat_map acquire acqs ++ [Destroy]) h) as [h2 tr2].
    simpl in *. exact IH.
  + unfold cleanup. specialize (IH (Build v)).
    destruct (run (flat_map acquire acqs ++ [Destroy]) (Build v)) as [h2 tr2].
    cbn [snd object] in *. rewrite !deleted_app, IH. cbn [filter].
    unfold nonempty at 2.
    destruct (T_eq_dec (object h) VK_NULL_HANDLE); reflexivity.
- cbn [flat_map acquire holdings]. rewrite <- app_assoc.
  change ([Replace; SlotWrite v] ++ flat_map acquire acqs ++ [Destroy])
    with (Replace :: SlotWrite v :: (flat_map acquire acqs ++ [Destroy])).
  cbn [run step]. unfold replace, cleanup, slot_write.
  specialize (IH (Build v)).
  destruct (run (flat_map acquire acqs ++ [Destroy]) (Build v)) as [h2 tr2].
  cbn [snd object] in *. rewrite !deleted_app, IH. cbn [filter].
  unfold nonempty at 2.
  destruct (T_eq_dec (object h) VK_NULL_HANDLE); reflexivity.
Qed.

End Template.

Arguments Replace {T}.
Arguments Destroy {T}.

End VDeleter.

(* ================================================================== *)
(** * Names read from the external headers *)
(* ================================================================== *)

(** The program reads these names from <vulkan/vulkan.h> and <cstdlib>,
    which are not files of the repository.  They are parameters of the
    model; the only fact used about them is that [EXIT_FAILURE] is a
    non-zero status.  Handles ([VkInstance], [VkPhysicalDevice], ...) and
    [VkResult] codes are integers. *)
Class Header : Type := {
  VK_NULL_HANDLE : Z;
  VK_SUCCESS : Z;
  VK_ERROR_EXTENSION_NOT_PRESENT : Z;
  VK_FALSE : Z;
  VK_QUEUE_GRAPHICS_BIT : N;
  EXIT_SUCCESS : Z;
  EXIT_FAILURE : Z;
  EXIT_FAILURE_nonzero : EXIT_FAILURE <> 0
}.

(** The values of the Vulkan 1.0 header and of the C library, for running
    the model on concrete inputs. *)
Definition vulkan_1_0 : Header := {|
  VK_NULL_HANDLE := 0;
  VK_SUCCESS := 0;
  VK_ERROR_EXTENSION_NOT_PRESENT := -7;
  VK_FALSE := 0;
  VK_QUEUE_GRAPHICS_BIT := 1%N;
  EXIT_SUCCESS := 0;
  EXIT_FAILURE := 1;
  EXIT_FAILURE_nonzero := Z.neq_succ_diag_l 0
|}.

(** [VK_QUEUE_COMPUTE_BIT] of the same header, used by one example. *)
Definition VK_QUEUE_COMPUTE_BIT_1_0 : N := 2%N.

(* ================================================================== *)
(** * Validation layers *)
(* ================================================================== *)

(** [const std::vector<const char*> validationLayers] *)
Definition validationLayers : list string :=
  ["VK_LAYER_LUNARG_standard_validation"%string].

(** A [const char*] or a [char[]] buffer is modelled by the characters it
    holds: the end of the Rocq string stands for the terminating NUL, and a
    zero character inside the string terminates the C string earlier. *)
Definition uchar (c : ascii) : Z := Z.of_N (N_of_ascii c).

(** The C string a buffer holds: its characters before the first NUL. *)
Fixpoint c_str (s : string) : string :=
  match s with
  | EmptyString => EmptyString
  | String c rest => if uchar c =? 0 then EmptyString else String c (c_str rest)
  end.

(** [strcmp] of <cstring>: the difference of the first pair of differing
    characters, read as [unsigned char]; zero when both strings end
    together. *)
Fixpoint strcmp (s1 s2 : string) : Z :=
  match s1, s2 with
  | EmptyString, EmptyString => 0
  | EmptyString, String c2 _ => 0 - uchar c2
  | String c1 _, EmptyString => uchar c1 - 0
  | String c1 r1, String c2 r2 =>
      if uchar c1 =? uchar c2
      then (if uchar c1 =? 0 then 0 else strcmp r1 r2)
      else uchar c1 - uchar c2
  end.

(** The field of [VkLayerProperties] the program reads. *)
Record VkLayerProperties : Type := { layerName : string }.

(** The inner loop of [checkValidationLayerSupport]: the final value of
    [layerFound] for one required name. *)
Fixpoint layerFound (name : string) (availableLayers : list VkLayerProperties)
  : bool :=
  match availableLayers with
  | [] => false
  | layerProperties :: rest =>
      if strcmp name (layerName layerProperties) =? 0 then true
      else layerFound name rest
  end.

(** [bool checkValidationLayerSupport()]: [layers] is the global
    [validationLayers] and [availableLayers] is what the two calls of
    [vkEnumerateInstanceLayerProperties] return. *)
Fixpoint checkValidationLayerSupport
  (layers : list string) (availableLayers : list VkLayerProperties) : bool :=
  match layers with
  | [] => true
  | name :: rest =>
      if negb (layerFound name availableLayers) then false
      else checkValidationLayerSupport rest availableLayers
  end.

(** A required name is present when some available layer holds the same C
    string. *)
Definition present (name : string) (availableLayers : list VkLayerProperties)
  : Prop :=
  exists lp, In lp availableLayers /\ c_str name = c_str (layerName lp).

Lemma uchar_inj (a b : ascii) : uchar a = uchar b -> a = b.
Proof.
unfold uchar. intros H. apply N2Z.inj in H.
rewrite <- (ascii_N_embedding a), <- (ascii_N_embedding b). now rewrite H.
Qed.

Lemma uchar_nonneg (a : ascii) : 0 <= uchar a.
Proof. unfold uchar. lia. Qed.

Lemma strcmp_zero_iff (s1 s2 : string) :
strcmp s1 s2 = 0 <-> c_str s1 = c_str s2.
Proof.
revert s2. induction s1 as [|c1 r1 IH]; intros [|c2 r2]; simpl.
- tauto.
- destruct (Z.eqb_spec (uchar c2) 0) as [E|NE].
  + rewrite E. tauto.
  + split; [lia|discriminate].
- destruct (Z.eqb_spec (uchar c1) 0) as [E|NE].
  + rewrite E. tauto.
  + split; [lia|discriminate].
- destruct (Z.eqb_spec (uchar c1) (uchar c2)) as [E|NE].
  + rewrite <- E. destruct (Z.eqb_spec (uchar c1) 0) as [E0|NE0]; [tauto|].
    apply uchar_inj in E. subst c2. rewrite IH. split; congruence.
  + split; [lia|].
    destruct (Z.eqb_spec (uchar c1) 0) as [E1|N1];
      destruct (Z.eqb_spec (uchar c2) 0) as [E2|N2];
      try discriminate; try congruence.
Qed.

Lemma c_str_plain (s : string) :
(forall c, In c (list_ascii_of_string s) -> uchar c <> 0) -> c_str s = s.
Proof.
induction s as [|c r IH]; simpl; intros H; auto.
destruct (Z.eqb_spec (uchar c) 0) as [E|NE].
- exfalso. apply (H c); auto.
- f_equal. apply IH. intros; apply H; auto.
Qed.

Lemma layerFound_iff (name : string) (availableLayers : list VkLayerProperties) :
layerFound name availableLayers = true <-> present name availableLayers.
Proof.
unfold present. induction availableLayers as [|lp rest IH]; simpl.
- split; [discriminate|]. intros (lp & [] & _).
- destruct (Z.eqb_spec (strcmp name (layerName lp)) 0) as [E|NE].
  + split; auto. intros _. exists lp. split; auto. now apply strcmp_zero_iff.
  + rewrite IH. split.
    * intros (lp' & Hin & Heq). eauto.
    * intros (lp' & [<-|Hin] & Heq); eauto.
      exfalso. apply NE. now apply strcmp_zero_iff.
Qed.

Lemma check_iff (layers : list string) (availableLayers : list VkLayerProperties) :
checkValidationLayerSupport layers availableLayers = true <->
(forall name, In name layers -> present name availableLayers).
Proof.
induction layers as [|name rest IH]; simpl.
- split; auto. intros _ ? [].
- destruct (layerFound name availableLayers) eqn:F; simpl.
  + rewrite IH. apply layerFound_iff in F. split.
    * intros H n [<-|Hin]; auto.
    * intros H n Hin. auto.
  + split; [discriminate|]. intros H.
    assert (P : present name availableLayers) by auto.
    apply layerFound_iff in P. congruence.
Qed.

(** C5.  [checkValidationLayerSupport] returns true exactly when every
    required name is the C string of some available layer (comparison by
    [strcmp], hence exact); a required name that is missing makes it return
    false whatever comes after that name; the result does not depend on the
    order (or multiplicity) of the available layers.  With required names
    "A","B": available "A" gives false, available "B","A" gives true. *)
Theorem checkValidationLayerSupport_exact
  (layers : list string) (availableLayers : list VkLayerProperties) :
(checkValidationLayerSupport layers availableLayers = true <->
   forall name, In name layers ->
     exists lp, In lp availableLayers /\
                strcmp name (layerName lp) = 0 /\
                c_str name = c_str (layerName lp)) /\
(forall pre name post,
   layers = pre ++ name :: post ->
   ~ present name availableLayers ->
   checkValidationLayerSupport layers availableLayers = false /\
   checkValidationLayerSupport (pre ++ [name]) availableLayers = false) /\
(forall availableLayers',
   (forall lp, In lp availableLayers <-> In lp availableLayers') ->
   checkValidationLayerSupport layers availableLayers' =
   checkValidationLayerSupport layers availableLayers) /\
checkValidationLayerSupport ["A"; "B"]%string
  [{| layerName := "A" |}] = false /\
checkValidationLayerSupport ["A"; "B"]%string
  [{| layerName := "B" |}; {| layerName := "A" |}] = true.
Proof.
split; [|split; [|split; [|split; reflexivity]]].
- rewrite check_iff. unfold present. split.
  + intros H n Hin. destruct (H n Hin) as (lp & Hl & E).
    exists lp. repeat split; auto. now apply strcmp_zero_iff.
  + intros H n Hin. destruct (H n Hin) as (lp & Hl & _ & E). eauto.
- intros pre name post E Hmiss.
  assert (G : forall l, In name l ->
            checkValidationLayerSupport l availableLayers = false).
  { intros l Hin. destruct (checkValidationLayerSupport l availableLayers) eqn:C; auto.
    exfalso. apply Hmiss. eapply check_iff; eauto. }
  split; apply G; subst; apply in_or_app; simpl; auto.
- intros A' Hsame.
  assert (P : forall n, present n availableLayers <-> present n A').
  { unfold present. intros n. split; intros (lp & Hin & E); exists lp;
      split; auto; now apply Hsame. }
  destruct (checkValidationLayerSupport layers availableLayers) eqn:C.
  + apply check_iff. intros n Hin. apply P. eapply check_iff; eauto.
  + destruct (checkValidationLayerSupport layers A') eqn:C'; auto.
    rewrite <- C. symmetry. apply check_iff. intros n Hin. apply P.
    eapply check_iff; eauto.
Qed.

(** C9.  With an empty required set the outer loop runs no iteration and
    [checkValidationLayerSupport] returns true, whatever layers are
    available. *)
Theorem checkValidationLayerSupport_no_requirement
  (availableLayers : list VkLayerProperties) :
checkValidationLayerSupport [] availableLayers = true.
Proof. reflexivity. Qed.

(* ================================================================== *)
(** * What the external API answers *)
(* ================================================================== *)

(** The fields of [VkQueueFamilyProperties] the program reads, both
    [uint32_t]. *)
Record VkQueueFamilyProperties : Type := {
  queueFlags : N;
  queueCount : N
}.

(** The answers of the Vulkan loader and of GLFW for one execution.  A
    count-then-fetch pair of calls is modelled by the list it fills.  A
    create call answers its [VkResult] and the handle it writes through the
    out-parameter, if it writes one. *)
Record Driver : Type := {
  NDEBUG : bool;
  glfwCreateWindow : Z;
  glfwWindowShouldClose : nat;
  vkEnumerateInstanceExtensionProperties : list string;
  vkEnumerateInstanceLayerProperties : list VkLayerProperties;
  vkCreateInstance : Z * option Z;
  vkGetInstanceProcAddr_create : option (Z * option Z);
  vkEnumeratePhysicalDevices : list Z;
  vkGetPhysicalDeviceProperties : Z -> Z;
  vkGetPhysicalDeviceFeatures : Z -> bool;
  vkGetPhysicalDeviceQueueFamilyProperties : Z -> list VkQueueFamilyProperties;
  vkCreateDevice : Z -> Z * option Z;
  vkGetDeviceQueue : Z -> Z -> Z
}.

(** [enableValidationLayers] is false under [NDEBUG] and true otherwise. *)
Definition enableValidationLayers (drv : Driver) : bool := negb (NDEBUG drv).

(* ================================================================== *)
(** * Queue families and device suitability *)
(* ================================================================== *)

(** [int] is 32 bits wide; [int_of] is the value an [int] holds after an
    arithmetic result is reduced to its range. *)
Definition INT_MAX : Z := 2147483647.

Definition int_of (z : Z) : Z := (z + 2 ^ 31) mod 2 ^ 32 - 2 ^ 31.

(** [struct QueueFamilyIndices], with [int graphicsFamily = -1]. *)
Record QueueFamilyIndices : Type := { graphicsFamily : Z }.

Definition QueueFamilyIndices_init : QueueFamilyIndices :=
  {| graphicsFamily := -1 |}.

(** [bool isComplete()] *)
Definition isComplete (indices : QueueFamilyIndices) : bool :=
  graphicsFamily indices >=? 0.

Section Selector.
Context {hdr : Header}.

(** The condition of the [if] in the scan:
    [queueFamily.queueCount > 0 && queueFamily.queueFlags & VK_QUEUE_GRAPHICS_BIT]. *)
Definition qualifies (queueFamily : VkQueueFamilyProperties) : bool :=
  (0 <? queueCount queueFamily)%N &&
  negb (N.land (queueFlags queueFamily) VK_QUEUE_GRAPHICS_BIT =? 0)%N.

(** The range-for loop of [findQueueFamilies], from the values of
    [indices] and [i] at the head of an iteration; it returns [indices] and
    the value of [i] when the loop is left. *)
Fixpoint findQueueFamilies_loop
  (queueFamilies : list VkQueueFamilyProperties)
  (indices : QueueFamilyIndices) (i : Z) : QueueFamilyIndices * Z :=
  match queueFamilies with
  | [] => (indices, i)
  | queueFamily :: rest =>
      let indices :=
        if qualifies queueFamily then {| graphicsFamily := i |} else indices in
      if isComplete indices then (indices, i)
      else findQueueFamilies_loop rest indices (int_of (i + 1))
  end.

(** [findQueueFamilies] after the two calls that fetch the families. *)
Definition findQueueFamilies_of
  (queueFamilies : list VkQueueFamilyProperties) : QueueFamilyIndices :=
  fst (findQueueFamilies_loop queueFamilies QueueFamilyIndices_init 0).

(** [QueueFamilyIndices findQueueFamilies(VkPhysicalDevice device)] *)
Definition findQueueFamilies (drv : Driver) (device : Z) : QueueFamilyIndices :=
  findQueueFamilies_of (vkGetPhysicalDeviceQueueFamilyProperties drv device).

(** [bool isDeviceSuitable(VkPhysicalDevice device)]; the queries of the
    device properties and features are commented out in the source. *)
Definition isDeviceSuitable (drv : Driver) (device : Z) : bool :=
  let indices := findQueueFamilies drv device in
  isComplete indices.

Lemma int_of_small (z : Z) : - 2 ^ 31 <= z <= INT_MAX -> int_of z = z.
Proof.
unfold int_of, INT_MAX. intros H.
rewrite Z.mod_small; lia.
Qed.

Lemma qualifies_iff (f : VkQueueFamilyProperties) :
qualifies f = true <->
queueCount f <> 0%N /\ N.land (queueFlags f) VK_QUEUE_GRAPHICS_BIT <> 0%N.
Proof.
unfold qualifies. rewrite andb_true_iff, negb_true_iff, N.ltb_lt, N.eqb_neq. lia.
Qed.

Lemma loop_first_match (pre : list VkQueueFamilyProperties) :
forall f post indices i,
(forall g, In g pre -> qualifies g = false) ->
qualifies f = true ->
isComplete indices = false ->
0 <= i -> i + Z.of_nat (length pre) <= INT_MAX ->
findQueueFamilies_loop (pre ++ f :: post) indices i =
  ({| graphicsFamily := i + Z.of_nat (length pre) |}, i + Z.of_nat (length pre)).
Proof.
induction pre as [|g pre IH]; intros f post indices i Hpre Hf Hc Hi Hmax.
- simpl. rewrite Hf. unfold isComplete; simpl.
  destruct (Z.geb_spec i 0); [|lia]. now rewrite Z.add_0_r.
- simpl app. cbn [findQueueFamilies_loop]. rewrite (Hpre g) by (simpl; auto).
  rewrite Hc. cbn [length] in Hmax.
  rewrite int_of_small by (unfold INT_MAX in *; lia).
  rewrite IH; auto; try lia.
  + replace (i + 1 + Z.of_nat (length pre))
      with (i + Z.of_nat (S (length pre))) by lia. reflexivity.
  + intros; apply Hpre; simpl; auto.
Qed.

Lemma loop_no_match (fams : list VkQueueFamilyProperties) :
forall indices i,
(forall g, In g fams -> qualifies g = false) ->
isComplete indices = false ->
0 <= i -> i + Z.of_nat (length fams) <= INT_MAX ->
findQueueFamilies_loop fams indices i = (indices, i + Z.of_nat (length fams)).
Proof.
induction fams as [|g fams IH]; intros indices i Hall Hc Hi Hmax.
- simpl. now rewrite Z.add_0_r.
- cbn [findQueueFamilies_loop]. rewrite (Hall g) by (simpl; auto).
  rewrite Hc. cbn [length] in Hmax.
  rewrite int_of_small by (unfold INT_MAX in *; lia).
  rewrite IH; auto; try lia.
  + replace (i + 1 + Z.of_nat (length fams))
      with (i + Z.of_nat (S (length fams))) by lia. reflexivity.
  + intros; apply Hall; simpl; auto.
Qed.

(** Any list splits at its first qualifying family, if it has one. *)
Lemma first_qualifying (fams : list VkQueueFamilyProperties) :
(forall g, In g fams -> qualifies g = false) \/
(exists pre f post, fams = pre ++ f :: post /\
   (forall g, In g pre -> qualifies g = false) /\ qualifies f = true).
Proof.
induction fams as [|g fams IH].
- left. intros ? [].
- destruct (qualifies g) eqn:Q.
  + right. exists [], g, fams. repeat split; auto. intros ? [].
  + destruct IH as [H|(pre & f & post & E & Hp & Hf)].
    * left. intros x [<-|Hin]; auto.
    * right. exists (g :: pre), f, post. subst. repeat split; auto.
      intros x [<-|Hin]; auto.
Qed.

Lemma findQueueFamilies_of_range (fams : list VkQueueFamilyProperties) :
Z.of_nat (length fams) <= INT_MAX ->
graphicsFamily (findQueueFamilies_of fams) = -1 \/
0 <= graphicsFamily (findQueueFamilies_of fams) < Z.of_nat (length fams).
Proof.
intros Hmax. unfold findQueueFamilies_of.
destruct (first_qualifying fams) as [H|(pre & f & post & E & Hp & Hf)].
- rewrite loop_no_match; auto; try lia.
- subst fams. rewrite length_app in Hmax. cbn [length] in Hmax.
  rewrite loop_first_match; auto; try lia.
  right. simpl. rewrite length_app. simpl. lia.
Qed.

End Selector.

(** C2.  For a device whose family list fits the range of [int]:
    [findQueueFamilies] returns the index of the first family, in list
    order, with a non-zero queue count and the graphics bit set; the scan
    is left at that family (the loop counter stops there and the families
    after it do not matter); when no family qualifies, the empty list
    included, it returns -1.  With the header's graphics and compute bits,
    the list [count 2, COMPUTE; count 1, GRAPHICS] gives index 1. *)
Theorem findQueueFamilies_lowest_match {hdr : Header} (drv : Driver) (device : Z) :
let queueFamilies := vkGetPhysicalDeviceQueueFamilyProperties drv device in
Z.of_nat (length queueFamilies) <= INT_MAX ->
(forall pre f post,
   queueFamilies = pre ++ f :: post ->
   (forall g, In g pre ->
      queueCount g = 0%N \/ N.land (queueFlags g) VK_QUEUE_GRAPHICS_BIT = 0%N) ->
   queueCount f <> 0%N ->
   N.land (queueFlags f) VK_QUEUE_GRAPHICS_BIT <> 0%N ->
   graphicsFamily (findQueueFamilies drv device) = Z.of_nat (length pre) /\
   snd (findQueueFamilies_loop queueFamilies QueueFamilyIndices_init 0)
     = Z.of_nat (length pre) /\
   forall post', findQueueFamilies_of (pre ++ f :: post')
                 = findQueueFamilies drv device) /\
((forall g, In g queueFamilies ->
    queueCount g = 0%N \/ N.land (queueFlags g) VK_QUEUE_GRAPHICS_BIT = 0%N) ->
 graphicsFamily (findQueueFamilies drv device) = -1) /\
(queueFamilies = [] -> graphicsFamily (findQueueFamilies drv device) = -1) /\
graphicsFamily
  (findQueueFamilies_of (hdr := vulkan_1_0)
     [ {| queueFlags := VK_QUEUE_COMPUTE_BIT_1_0; queueCount := 2 |};
       {| queueFlags := VK_QUEUE_GRAPHICS_BIT (Header := vulkan_1_0);
          queueCount := 1 |} ]) = 1.
Proof.
intros fams Hmax.
assert (NQ : forall l : list VkQueueFamilyProperties,
    (forall g, In g l ->
       queueCount g = 0%N \/ N.land (queueFlags g) VK_QUEUE_GRAPHICS_BIT = 0%N) ->
    forall g, In g l -> qualifies g = false).
{ intros l H g Hin. destruct (qualifies g) eqn:Q; auto.
  apply qualifies_iff in Q. destruct (H g Hin); tauto. }
assert (None : (forall g, In g fams -> qualifies g = false) ->
               graphicsFamily (findQueueFamilies drv device) = -1).
{ intros H. unfold findQueueFamilies, findQueueFamilies_of. fold fams.
  rewrite loop_no_match; auto; lia. }
split; [|split; [|split; [|reflexivity]]].
- intros pre f post E Hpre Hc Hf.
  assert (Qf : qualifies f = true) by (apply qualifies_iff; auto).
  assert (Qpre : forall g, In g pre -> qualifies g = false) by now apply NQ.
  assert (Hlen : Z.of_nat (length pre) <= INT_MAX).
  { rewrite E, length_app in Hmax. lia. }
  unfold findQueueFamilies, findQueueFamilies_of. fold fams. rewrite E.
  rewrite !loop_first_match by (auto; lia).
  simpl. repeat split; auto.
  intros post'. unfold findQueueFamilies_of.
  rewrite loop_first_match by (auto; lia). reflexivity.
- intros H. apply None. now apply NQ.
- intros E. apply None. rewrite E. intros ? [].
Qed.

(** C6.  [isDeviceSuitable] is the completeness predicate of the result of
    [findQueueFamilies]: true exactly when the recorded index is at least
    0, which for a family list within the range of [int] is exactly when
    it is not the sentinel -1.  The answer is a function of the device's
    queue families alone: the device properties and features, and every
    other answer of the driver, do not enter it. *)
Theorem isDeviceSuitable_is_completeness {hdr : Header} (drv : Driver) (device : Z) :
isDeviceSuitable drv device = isComplete (findQueueFamilies drv device) /\
(isDeviceSuitable drv device = true <->
   graphicsFamily (findQueueFamilies drv device) >= 0) /\
(Z.of_nat (length (vkGetPhysicalDeviceQueueFamilyProperties drv device))
   <= INT_MAX ->
 (isDeviceSuitable drv device = true <->
    graphicsFamily (findQueueFamilies drv device) <> -1)) /\
(forall drv' device',
   vkGetPhysicalDeviceQueueFamilyProperties drv' device' =
   vkGetPhysicalDeviceQueueFamilyProperties drv device ->
   isDeviceSuitable drv' device' = isDeviceSuitable drv device).
Proof.
split; [reflexivity|split; [|split]].
- unfold isDeviceSuitable, isComplete.
  destruct (Z.geb_spec (graphicsFamily (findQueueFamilies drv device)) 0);
    split; intros; auto; try lia; discriminate.
- intros Hmax. unfold isDeviceSuitable, isComplete, findQueueFamilies.
  destruct (findQueueFamilies_of_range _ Hmax) as [E|R].
  + rewrite E. simpl. split; [discriminate|congruence].
  + destruct (Z.geb_spec (graphicsFamily (findQueueFamilies_of
      (vkGetPhysicalDeviceQueueFamilyProperties drv device))) 0);
      split; intros; auto; try lia; discriminate.
- intros drv' device' E. unfold isDeviceSuitable, findQueueFamilies. now rewrite E.
Qed.


(* ================================================================== *)
(** * The application *)
(* ================================================================== *)

(** The calls into the external libraries and the lines written to the
    standard streams, in the order the program makes them. *)
Inductive Event : Type :=
| E_cout (line : string)
| E_cerr (line : string)
| E_glfwInit
| E_glfwWindowHint
| E_glfwCreateWindow
| E_glfwGetRequiredInstanceExtensions
| E_glfwPollEvents
| E_glfwDestroyWindow (window : Z)
| E_glfwTerminate
| E_vkEnumerateInstanceExtensionProperties
| E_vkEnumerateInstanceLayerProperties
| E_vkCreateInstance
| E_vkDestroyInstance (instance : Z)
| E_CreateDebugReportCallbackEXT (instance : Z)
| E_DestroyDebugReportCallbackEXT (instance callback : Z)
| E_vkEnumeratePhysicalDevices (instance : Z)
| E_vkGetPhysicalDeviceQueueFamilyProperties (device : Z)
| E_vkCreateDevice (physicalDevice : Z)
| E_vkDestroyDevice (device : Z)
| E_vkGetDeviceQueue (device family : Z).

(** The data members of [class HelloTriangleApplication], in declaration
    order. *)
Record HelloTriangleApplication : Type := {
  window : Z;
  instance : VDeleter.t Z;
  callback : VDeleter.t Z;
  physicalDevice : Z;
  device : VDeleter.t Z;
  graphicsQueue : Z
}.

(** The members that are scoped handles, in declaration order. *)
Inductive Member : Type := m_instance | m_callback | m_device.

Definition members : list Member := [m_instance; m_callback; m_device].

Definition member_get (m : Member) (app : HelloTriangleApplication)
  : VDeleter.t Z :=
  match m with
  | m_instance => instance app
  | m_callback => callback app
  | m_device => device app
  end.

Definition member_set (m : Member) (h : VDeleter.t Z)
  (app : HelloTriangleApplication) : HelloTriangleApplication :=
  match m with
  | m_instance =>
      {| window := window app; instance := h; callback := callback app;
         physicalDevice := physicalDevice app; device := device app;
         graphicsQueue := graphicsQueue app |}
  | m_callback =>
      {| window := window app; instance := instance app; callback := h;
         physicalDevice := physicalDevice app; device := device app;
         graphicsQueue := graphicsQueue app |}
  | m_device =>
      {| window := window app; instance := instance app;
         callback := callback app; physicalDevice := physicalDevice app;
         device := h; graphicsQueue := graphicsQueue app |}
  end.

Definition set_window (w : Z) (app : HelloTriangleApplication)
  : HelloTriangleApplication :=
  {| window := w; instance := instance app; callback := callback app;
     physicalDevice := physicalDevice app; device := device app;
     graphicsQueue := graphicsQueue app |}.

Definition set_physicalDevice (d : Z) (app : HelloTriangleApplication)
  : HelloTriangleApplication :=
  {| window := window app; instance := instance app; callback := callback app;
     physicalDevice := d; device := device app;
     graphicsQueue := graphicsQueue app |}.

Definition set_graphicsQueue (q : Z) (app : HelloTriangleApplication)
  : HelloTriangleApplication :=
  {| window := window app; instance := instance app; callback := callback app;
     physicalDevice := physicalDevice app; device := device app;
     graphicsQueue := q |}.

(** The release function bound by each member's initializer:
    [instance{ vkDestroyInstance }],
    [callback{ instance, DestroyDebugReportCallbackEXT }] and
    [device{ vkDestroyDevice }].  The second captures [instance] by
    reference and converts it to [VkInstance] when the release runs. *)
Definition deleter (m : Member) (app : HelloTriangleApplication) (obj : Z)
  : Event :=
  match m with
  | m_instance => E_vkDestroyInstance obj
  | m_callback => E_DestroyDebugReportCallbackEXT (VDeleter.read (instance app)) obj
  | m_device => E_vkDestroyDevice obj
  end.

(** How a member function of the program ends: it returns a value or
    leaves by [throw std::runtime_error(what)]. *)
Inductive outcome (A : Type) : Type :=
| Returned (a : A)
| Thrown (what : string).
Arguments Returned {A} a.
Arguments Thrown {A} what.

(** A member function: from the object's state to its outcome, the new
    state and the calls made. *)
Definition M (A : Type) : Type :=
  HelloTriangleApplication -> outcome A * HelloTriangleApplication * list Event.

Definition ret {A : Type} (a : A) : M A := fun app => (Returned a, app, []).

Definition throw {A : Type} (what : string) : M A :=
  fun app => (Thrown what, app, []).

Definition bind {A B : Type} (c : M A) (k : A -> M B) : M B :=
  fun app =>
    match c app with
    | (Returned a, app1, tr1) =>
        let '(r, app2, tr2) := k a app1 in (r, app2, tr1 ++ tr2)
    | (Thrown what, app1, tr1) => (Thrown what, app1, tr1)
    end.

Definition emit (e : Event) : M unit := fun app => (Returned tt, app, [e]).

Definition get : M HelloTriangleApplication := fun app => (Returned app, app, []).

Definition modify (f : HelloTriangleApplication -> HelloTriangleApplication)
  : M unit := fun app => (Returned tt, f app, []).

Notation "x <- c ;; k" := (bind c (fun x => k))
  (at level 61, c at next level, right associativity).
Notation "c ;;; k" := (bind c (fun _ => k))
  (at level 61, right associativity).

Section Application.
Context {hdr : Header}.
Variable drv : Driver.

(** The calls of the bound release function a wrapper operation made, as
    calls of the program. *)
Definition released (m : Member) (app : HelloTriangleApplication)
  (tr : list (VDeleter.event Z)) : list Event :=
  map (deleter m app) (VDeleter.deleted tr).

(** [member.replace()] *)
Definition member_replace (m : Member) : M Z :=
  fun app =>
    let '(h, slot, tr) :=
      VDeleter.replace Z.eq_dec VK_NULL_HANDLE (member_get m app) in
    (Returned slot, member_set m h app, released m app tr).

(** The callee's write through the pointer [member.replace()] returned. *)
Definition member_slot_write (m : Member) (out : option Z) : M unit :=
  match out with
  | None => ret tt
  | Some v =>
      fun app =>
        let '(h, tr) := VDeleter.slot_write v (member_get m app) in
        (Returned tt, member_set m h app, released m app tr)
  end.

(** [member.~VDeleter()] *)
Definition member_destroy (m : Member) : M unit :=
  fun app =>
    let '(h, tr) :=
      VDeleter.destroy Z.eq_dec VK_NULL_HANDLE (member_get m app) in
    (Returned tt, member_set m h app, released m app tr).

(** [void initWindow()] *)
Definition initWindow : M unit :=
  emit E_glfwInit ;;;
  emit E_glfwWindowHint ;;;
  emit E_glfwWindowHint ;;;
  emit E_glfwCreateWindow ;;;
  modify (set_window (glfwCreateWindow drv)).

(** The block of [createInstance] compiled when [NDEBUG] is not defined. *)
Fixpoint list_extensions (extensions : list string) : M unit :=
  match extensions with
  | [] => ret tt
  | extension :: rest =>
      emit (E_cout (String (ascii_of_nat 9) extension)) ;;;
      list_extensions rest
  end.

(** [void createInstance()] *)
Definition createInstance : M unit :=
  (if NDEBUG drv then ret tt
   else
     emit E_vkEnumerateInstanceExtensionProperties ;;;
     emit E_vkEnumerateInstanceExtensionProperties ;;;
     emit (E_cout "available extensions:") ;;;
     list_extensions (vkEnumerateInstanceExtensionProperties drv)) ;;;
  supported <-
    (if enableValidationLayers drv
     then
       emit E_vkEnumerateInstanceLayerProperties ;;;
       emit E_vkEnumerateInstanceLayerProperties ;;;
       ret (checkValidationLayerSupport validationLayers
              (vkEnumerateInstanceLayerProperties drv))
     else ret true) ;;
  if enableValidationLayers drv && negb supported
  then throw "validation layers requested, but not available!"
  else
    emit E_glfwGetRequiredInstanceExtensions ;;;
    _ <- member_replace m_instance ;;
    emit E_vkCreateInstance ;;;
    member_slot_write m_instance (snd (vkCreateInstance drv)) ;;;
    if negb (fst (vkCreateInstance drv) =? VK_SUCCESS)
    then throw "failed to create instance!"
    else ret tt.

(** [void setupDebugCallback()], with the proxy
    [CreateDebugReportCallbackEXT] it calls. *)
Definition setupDebugCallback : M unit :=
  if negb (enableValidationLayers drv) then ret tt
  else
    app <- get ;;
    _ <- member_replace m_callback ;;
    emit (E_CreateDebugReportCallbackEXT (VDeleter.read (instance app))) ;;;
    result <-
      match vkGetInstanceProcAddr_create drv with
      | Some (result, out) =>
          member_slot_write m_callback out ;;; ret result
      | None => ret VK_ERROR_EXTENSION_NOT_PRESENT
      end ;;
    if negb (result =? VK_SUCCESS)
    then throw "failed to set up debug callback!"
    else ret tt.

(** [findQueueFamilies(device)] with its two calls of
    [vkGetPhysicalDeviceQueueFamilyProperties]. *)
Definition findQueueFamilies_call (dev : Z) : M QueueFamilyIndices :=
  emit (E_vkGetPhysicalDeviceQueueFamilyProperties dev) ;;;
  emit (E_vkGetPhysicalDeviceQueueFamilyProperties dev) ;;;
  ret (findQueueFamilies drv dev).

(** [isDeviceSuitable(device)] with the calls it makes. *)
Definition isDeviceSuitable_call (dev : Z) : M bool :=
  indices <- findQueueFamilies_call dev ;;
  ret (isComplete indices).

(** The range-for loop of [pickPhysicalDevice]. *)
Fixpoint pickPhysicalDevice_loop (devices : list Z) : M unit :=
  match devices with
  | [] => ret tt
  | dev :: rest =>
      suitable <- isDeviceSuitable_call dev ;;
      if suitable then modify (set_physicalDevice dev)
      else pickPhysicalDevice_loop rest
  end.

(** [void pickPhysicalDevice()] *)
Definition pickPhysicalDevice : M unit :=
  app <- get ;;
  emit (E_vkEnumeratePhysicalDevices (VDeleter.read (instance app))) ;;;
  if (Z.of_nat (length (vkEnumeratePhysicalDevices drv)) =? 0)
  then throw "failed to find GPUs with Vilkan support!"
  else
    emit (E_vkEnumeratePhysicalDevices (VDeleter.read (instance app))) ;;;
    pickPhysicalDevice_loop (vkEnumeratePhysicalDevices drv) ;;;
    app' <- get ;;
    if physicalDevice app' =? VK_NULL_HANDLE
    then throw "no Vulkan supporting GPU can do what you need!"
    else ret tt.

(** [void createLogicalDevice()] *)
Definition createLogicalDevice : M unit :=
  app <- get ;;
  indices <- findQueueFamilies_call (physicalDevice app) ;;
  _ <- member_replace m_device ;;
  emit (E_vkCreateDevice (physicalDevice app)) ;;;
  member_slot_write m_device (snd (vkCreateDevice drv (physicalDevice app))) ;;;
  if negb (fst (vkCreateDevice drv (physicalDevice app)) =? VK_SUCCESS)
  then throw "failed to create logical device!"
  else
    app' <- get ;;
    emit (E_vkGetDeviceQueue (VDeleter.read (device app'))
            (graphicsFamily indices)) ;;;
    modify (set_graphicsQueue
              (vkGetDeviceQueue drv (VDeleter.read (device app'))
                 (graphicsFamily indices))).

(** [void initVulkan()] of the later checkpoint. *)
Definition initVulkan : M unit :=
  createInstance ;;;
  setupDebugCallback ;;;
  pickPhysicalDevice ;;;
  createLogicalDevice.

(** The [while] loop of [mainLoop], for a window that asks to close after
    [n] polls. *)
Fixpoint poll (n : nat) : M unit :=
  match n with
  | O => ret tt
  | S n' => emit E_glfwPollEvents ;;; poll n'
  end.

(** [void mainLoop()] *)
Definition mainLoop : M unit :=
  poll (glfwWindowShouldClose drv) ;;;
  app <- get ;;
  emit (E_glfwDestroyWindow (window app)) ;;;
  emit E_glfwTerminate.

(** [void run()] *)
Definition run : M unit :=
  initWindow ;;;
  initVulkan ;;;
  mainLoop.

(** The implicit destructor of the class: the members are destroyed in
    the reverse of their declaration order (the language's rule for
    non-static data members); only the scoped handles have a destructor
    that does anything. *)
Fixpoint destroy_members (ms : list Member) : M unit :=
  match ms with
  | [] => ret tt
  | m :: rest => member_destroy m ;;; destroy_members rest
  end.

Definition HelloTriangleApplication_dtor : M unit :=
  destroy_members (rev members).

(** [HelloTriangleApplication app;] every wrapper starts empty and
    [physicalDevice] at its initializer; [window] and [graphicsQueue] have
    no initializer and are written before they are read. *)
Definition HelloTriangleApplication_ctor : HelloTriangleApplication :=
  {| window := 0;
     instance := VDeleter.construct VK_NULL_HANDLE;
     callback := VDeleter.construct VK_NULL_HANDLE;
     physicalDevice := VK_NULL_HANDLE;
     device := VDeleter.construct VK_NULL_HANDLE;
     graphicsQueue := 0 |}.

(** [int main()]: the exit status and everything the process did.  [app]
    is a local of [main], destroyed when [main] returns. *)
Definition main : Z * list Event :=
  let app := HelloTriangleApplication_ctor in
  match run app with
  | (Thrown what, app1, tr1) =>
      let '(_, _, tr2) := HelloTriangleApplication_dtor app1 in
      (EXIT_FAILURE, tr1 ++ [E_cerr what] ++ tr2)
  | (Returned _, app1, tr1) =>
      let '(_, _, tr2) := HelloTriangleApplication_dtor app1 in
      (EXIT_SUCCESS, tr1 ++ tr2)
  end.

End Application.

(** [static VkBool32 debugCallback(...)]: the value returned and the line
    written to [std::cerr]. *)
Definition debugCallback {hdr : Header}
  (flags objType obj location code : Z) (layerPrefix msg : string)
  (userData : Z) : Z * list Event :=
  (VK_FALSE, [E_cerr ("validation layer: " ++ msg)]).

(* ------------------------------------------------------------------ *)
(** ** What each member function does, in closed form *)

Section Execution.
Context {hdr : Header}.
Variable drv : Driver.

(** The release a member's cleanup performs in state [app]: none for an
    empty wrapper, else one call of the bound release function. *)
Definition release_of (m : Member) (app : HelloTriangleApplication)
  : list Event :=
  if Z.eq_dec (VDeleter.object (member_get m app)) VK_NULL_HANDLE then []
  else [deleter m app (VDeleter.object (member_get m app))].

(** The releases of the implicit destructor in state [app]. *)
Definition teardown (app : HelloTriangleApplication) : list Event :=
  release_of m_device app ++ release_of m_callback app ++
  release_of m_instance app.

(** The state the implicit destructor leaves. *)
Definition emptied (app : HelloTriangleApplication) : HelloTriangleApplication :=
  {| window := window app;
     instance := VDeleter.construct VK_NULL_HANDLE;
     callback := VDeleter.construct VK_NULL_HANDLE;
     physicalDevice := physicalDevice app;
     device := VDeleter.construct VK_NULL_HANDLE;
     graphicsQueue := graphicsQueue app |}.

(** The handle a wrapper holds after a create call wrote [out] through
    the slot of a fresh [replace()]. *)
Definition written (out : option Z) : VDeleter.t Z :=
  match out with
  | Some v => VDeleter.Build v
  | None => VDeleter.construct VK_NULL_HANDLE
  end.

(** The two calls of [vkGetPhysicalDeviceQueueFamilyProperties] for each
    device the scan evaluates. *)
Definition evaluated (devices : list Z) : list Event :=
  flat_map (fun dev => [E_vkGetPhysicalDeviceQueueFamilyProperties dev;
                        E_vkGetPhysicalDeviceQueueFamilyProperties dev])
           devices.

Definition is_release (e : Event) : bool :=
  match e with
  | E_vkDestroyInstance _ | E_DestroyDebugReportCallbackEXT _ _
  | E_vkDestroyDevice _ => true
  | _ => false
  end.

Definition is_mainLoop (e : Event) : bool :=
  match e with
  | E_glfwPollEvents | E_glfwDestroyWindow _ | E_glfwTerminate => true
  | _ => false
  end.

Lemma member_replace_eq (m : Member) (app : HelloTriangleApplication) :
member_replace m app =
  (Returned VK_NULL_HANDLE,
   member_set m (VDeleter.construct VK_NULL_HANDLE) app, release_of m app).
Proof.
unfold member_replace, VDeleter.replace, VDeleter.cleanup, release_of, released.
destruct (Z.eq_dec (VDeleter.object (member_get m app)) VK_NULL_HANDLE);
  reflexivity.
Qed.

Lemma member_destroy_eq (m : Member) (app : HelloTriangleApplication) :
member_destroy m app =
  (Returned tt,
   member_set m (VDeleter.construct VK_NULL_HANDLE) app, release_of m app).
Proof.
unfold member_destroy, VDeleter.destroy, VDeleter.cleanup, release_of, released.
destruct (Z.eq_dec (VDeleter.object (member_get m app)) VK_NULL_HANDLE);
  reflexivity.
Qed.

Lemma dtor_eq (app : HelloTriangleApplication) :
HelloTriangleApplication_dtor app = (Returned tt, emptied app, teardown app).
Proof.
unfold HelloTriangleApplication_dtor, teardown. simpl. unfold bind.
rewrite !member_destroy_eq. unfold ret, emptied, release_of. simpl.
rewrite !app_nil_r, app_assoc. reflexivity.
Qed.

Lemma main_eq :
main drv =
  match run drv HelloTriangleApplication_ctor with
  | (Thrown what, app1, tr1) =>
      (EXIT_FAILURE, tr1 ++ [E_cerr what] ++ teardown app1)
  | (Returned _, app1, tr1) => (EXIT_SUCCESS, tr1 ++ teardown app1)
  end.
Proof.
unfold main.
destruct (run drv HelloTriangleApplication_ctor) as [[[u|what] app1] tr1];
  rewrite dtor_eq; reflexivity.
Qed.

(** The calls [createInstance] makes before it decides on the layers. *)
Definition preamble : list Event :=
  (if NDEBUG drv then []
   else [E_vkEnumerateInstanceExtensionProperties;
         E_vkEnumerateInstanceExtensionProperties;
         E_cout "available extensions:"] ++
        map (fun extension => E_cout (String (ascii_of_nat 9) extension))
            (vkEnumerateInstanceExtensionProperties drv)) ++
  (if enableValidationLayers drv
   then [E_vkEnumerateInstanceLayerProperties;
         E_vkEnumerateInstanceLayerProperties]
   else []).

(** The condition of the first [throw] of [createInstance]. *)
Definition layers_missing : bool :=
  enableValidationLayers drv &&
  negb (checkValidationLayerSupport validationLayers
          (vkEnumerateInstanceLayerProperties drv)).

(** What the proxy [CreateDebugReportCallbackEXT] returns. *)
Definition proxy_result : Z :=
  match vkGetInstanceProcAddr_create drv with
  | Some (result, _) => result
  | None => VK_ERROR_EXTENSION_NOT_PRESENT
  end.

Definition proxy_written : VDeleter.t Z :=
  match vkGetInstanceProcAddr_create drv with
  | Some (_, out) => written out
  | None => VDeleter.construct VK_NULL_HANDLE
  end.

Lemma initWindow_eq (app : HelloTriangleApplication) :
initWindow drv app =
  (Returned tt, set_window (glfwCreateWindow drv) app,
   [E_glfwInit; E_glfwWindowHint; E_glfwWindowHint; E_glfwCreateWindow]).
Proof. reflexivity. Qed.

Lemma list_extensions_eq (l : list string) (app : HelloTriangleApplication) :
list_extensions l app =
  (Returned tt, app,
   map (fun extension => E_cout (String (ascii_of_nat 9) extension)) l).
Proof.
induction l as [|e l IH]; [reflexivity|].
cbn [list_extensions]. unfold bind at 1. cbn [emit]. rewrite IH. reflexivity.
Qed.

Lemma createInstance_eq (app : HelloTriangleApplication) :
createInstance drv app =
  if layers_missing
  then (Thrown "validation layers requested, but not available!", app,
        preamble)
  else ((if negb (fst (vkCreateInstance drv) =? VK_SUCCESS)
         then Thrown "failed to create instance!" else Returned tt),
        member_set m_instance (written (snd (vkCreateInstance drv))) app,
        preamble ++ [E_glfwGetRequiredInstanceExtensions] ++
        release_of m_instance app ++ [E_vkCreateInstance]).
Proof.
unfold createInstance, layers_missing, preamble, enableValidationLayers.
destruct (NDEBUG drv);
  try destruct (checkValidationLayerSupport validationLayers
                  (vkEnumerateInstanceLayerProperties drv));
  unfold bind; cbn [negb andb ret emit throw];
  rewrite ?list_extensions_eq; cbn [negb andb ret emit throw];
  rewrite ?member_replace_eq;
  try (destruct (vkCreateInstance drv) as [res [v|]]; cbn [fst snd];
       destruct (negb (res =? VK_SUCCESS)));
  cbn; rewrite ?app_nil_r, <- ?app_assoc; reflexivity.
Qed.

Lemma setupDebugCallback_eq (app : HelloTriangleApplication) :
setupDebugCallback drv app =
  if negb (enableValidationLayers drv) then (Returned tt, app, [])
  else ((if negb (proxy_result =? VK_SUCCESS)
         then Thrown "failed to set up debug callback!" else Returned tt),
        member_set m_callback proxy_written app,
        release_of m_callback app ++
        [E_CreateDebugReportCallbackEXT (VDeleter.read (instance app))]).
Proof.
unfold setupDebugCallback, proxy_result, proxy_written.
destruct (negb (enableValidationLayers drv)); [reflexivity|].
unfold bind. cbn [get]. rewrite member_replace_eq. cbn [emit].
destruct (vkGetInstanceProcAddr_create drv) as [[res [v|]]|]; cbn;
  try destruct (negb (res =? VK_SUCCESS));
  try destruct (negb (VK_ERROR_EXTENSION_NOT_PRESENT =? VK_SUCCESS));
  cbn; rewrite ?app_nil_r; reflexivity.
Qed.

Lemma isDeviceSuitable_call_eq (dev : Z) (app : HelloTriangleApplication) :
isDeviceSuitable_call drv dev app =
  (Returned (isDeviceSuitable drv dev), app, evaluated [dev]).
Proof. reflexivity. Qed.

Lemma pick_loop_first (pre : list Z) :
forall d post app,
(forall x, In x pre -> isDeviceSuitable drv x = false) ->
isDeviceSuitable drv d = true ->
pickPhysicalDevice_loop drv (pre ++ d :: post) app =
  (Returned tt, set_physicalDevice d app, evaluated (pre ++ [d])).
Proof.
induction pre as [|x pre IH]; intros d post app Hpre Hd.
- cbn [List.app pickPhysicalDevice_loop]. unfold bind.
  rewrite isDeviceSuitable_call_eq, Hd. reflexivity.
- cbn [List.app pickPhysicalDevice_loop]. unfold bind at 1.
  rewrite isDeviceSuitable_call_eq, (Hpre x) by (simpl; auto).
  rewrite IH; auto. intros; apply Hpre; simpl; auto.
Qed.

Lemma pick_loop_none (devices : list Z) :
forall app,
(forall x, In x devices -> isDeviceSuitable drv x = false) ->
pickPhysicalDevice_loop drv devices app =
  (Returned tt, app, evaluated devices).
Proof.
induction devices as [|x devices IH]; intros app Hall; [reflexivity|].
cbn [pickPhysicalDevice_loop]. unfold bind at 1.
rewrite isDeviceSuitable_call_eq, (Hall x) by (simpl; auto).
rewrite IH; auto. intros; apply Hall; simpl; auto.
Qed.

Lemma pick_empty (app : HelloTriangleApplication) :
vkEnumeratePhysicalDevices drv = [] ->
pickPhysicalDevice drv app =
  (Thrown "failed to find GPUs with Vilkan support!", app,
   [E_vkEnumeratePhysicalDevices (VDeleter.read (instance app))]).
Proof.
intros E. unfold pickPhysicalDevice, bind. rewrite E. reflexivity.
Qed.

Lemma pick_first (app : HelloTriangleApplication) (pre : list Z) (d : Z)
  (post : list Z) :
vkEnumeratePhysicalDevices drv = pre ++ d :: post ->
(forall x, In x pre -> isDeviceSuitable drv x = false) ->
isDeviceSuitable drv d = true ->
pickPhysicalDevice drv app =
  ((if d =? VK_NULL_HANDLE
    then Thrown "no Vulkan supporting GPU can do what you need!"
    else Returned tt),
   set_physicalDevice d app,
   [E_vkEnumeratePhysicalDevices (VDeleter.read (instance app));
    E_vkEnumeratePhysicalDevices (VDeleter.read (instance app))] ++
   evaluated (pre ++ [d])).
Proof.
intros E Hpre Hd. unfold pickPhysicalDevice, bind. cbn [get emit]. rewrite E.
replace (Z.of_nat (length (pre ++ d :: post)) =? 0) with false
  by (symmetry; apply Z.eqb_neq; rewrite length_app; simpl; lia).
rewrite pick_loop_first by assumption.
cbn [physicalDevice set_physicalDevice].
destruct (d =? VK_NULL_HANDLE); cbn; rewrite ?app_nil_r; reflexivity.
Qed.

Lemma pick_none (app : HelloTriangleApplication) :
vkEnumeratePhysicalDevices drv <> [] ->
(forall x, In x (vkEnumeratePhysicalDevices drv) ->
   isDeviceSuitable drv x = false) ->
pickPhysicalDevice drv app =
  ((if physicalDevice app =? VK_NULL_HANDLE
    then Thrown "no Vulkan supporting GPU can do what you need!"
    else Returned tt),
   app,
   [E_vkEnumeratePhysicalDevices (VDeleter.read (instance app));
    E_vkEnumeratePhysicalDevices (VDeleter.read (instance app))] ++
   evaluated (vkEnumeratePhysicalDevices drv)).
Proof.
intros NE Hall. unfold pickPhysicalDevice, bind. cbn [get emit].
replace (Z.of_nat (length (vkEnumeratePhysicalDevices drv)) =? 0) with false
  by (symmetry; apply Z.eqb_neq;
      destruct (vkEnumeratePhysicalDevices drv); [congruence|simpl; lia]).
rewrite pick_loop_none by assumption.
destruct (physicalDevice app =? VK_NULL_HANDLE); cbn; rewrite ?app_nil_r;
  reflexivity.
Qed.

Lemma createLogicalDevice_eq (app : HelloTriangleApplication) :
let pd := physicalDevice app in
let app1 := member_set m_device (written (snd (vkCreateDevice drv pd))) app in
let family := graphicsFamily (findQueueFamilies drv pd) in
createLogicalDevice drv app =
  if negb (fst (vkCreateDevice drv pd) =? VK_SUCCESS)
  then (Thrown "failed to create logical device!", app1,
        evaluated [pd] ++ release_of m_device app ++ [E_vkCreateDevice pd])
  else (Returned tt,
        set_graphicsQueue
          (vkGetDeviceQueue drv (VDeleter.read (device app1)) family) app1,
        evaluated [pd] ++ release_of m_device app ++
        [E_vkCreateDevice pd;
         E_vkGetDeviceQueue (VDeleter.read (device app1)) family]).
Proof.
intros pd app1 family. subst pd app1 family.
unfold createLogicalDevice, findQueueFamilies_call, bind.
cbn [get emit ret]. rewrite member_replace_eq.
destruct (vkCreateDevice drv (physicalDevice app)) as [res [v|]]; cbn [fst snd];
  destruct (negb (res =? VK_SUCCESS)); cbn; rewrite ?app_nil_r;
  reflexivity.
Qed.

Lemma poll_eq (n : nat) (app : HelloTriangleApplication) :
poll n app = (Returned tt, app, repeat E_glfwPollEvents n).
Proof.
induction n as [|n IH]; [reflexivity|].
cbn [poll]. unfold bind. cbn [emit]. rewrite IH. reflexivity.
Qed.

Lemma mainLoop_eq (app : HelloTriangleApplication) :
mainLoop drv app =
  (Returned tt, app,
   repeat E_glfwPollEvents (glfwWindowShouldClose drv) ++
   [E_glfwDestroyWindow (window app); E_glfwTerminate]).
Proof.
unfold mainLoop, bind. rewrite poll_eq. reflexivity.
Qed.

Definition is_cerr (e : Event) : bool :=
  match e with
  | E_cerr _ => true
  | _ => false
  end.

(** The calls of the initialization phase: no release, no step of the
    main loop, nothing on [std::cerr]. *)
Definition init_event (e : Event) : bool :=
  negb (is_release e) && negb (is_mainLoop e) && negb (is_cerr e).

(** The scoped handles of [app] are all empty. *)
Definition handles_empty (app : HelloTriangleApplication) : Prop :=
  VDeleter.object (instance app) = VK_NULL_HANDLE /\
  VDeleter.object (callback app) = VK_NULL_HANDLE /\
  VDeleter.object (device app) = VK_NULL_HANDLE.

Lemma release_of_empty (m : Member) (app : HelloTriangleApplication) :
VDeleter.object (member_get m app) = VK_NULL_HANDLE -> release_of m app = [].
Proof.
intros E. unfold release_of. rewrite E.
destruct (Z.eq_dec VK_NULL_HANDLE VK_NULL_HANDLE); congruence.
Qed.

Lemma bind_thrown {A B : Type} (c : M A) (k : A -> M B)
  (app app1 : HelloTriangleApplication) (what : string) (tr : list Event) :
c app = (Thrown what, app1, tr) -> bind c k app = (Thrown what, app1, tr).
Proof. intros E. unfold bind. now rewrite E. Qed.

Lemma bind_returned {A B : Type} (c : M A) (k : A -> M B)
  (app app1 : HelloTriangleApplication) (a : A) (tr : list Event) :
c app = (Returned a, app1, tr) ->
bind c k app = (fst (fst (k a app1)), snd (fst (k a app1)), tr ++ snd (k a app1)).
Proof.
intros E. unfold bind. rewrite E. now destruct (k a app1) as [[r app2] tr2].
Qed.

Lemma preamble_quiet : forallb init_event preamble = true.
Proof.
unfold preamble. rewrite forallb_app. apply andb_true_iff. split.
- destruct (NDEBUG drv); [reflexivity|].
  rewrite forallb_app. simpl.
  induction (vkEnumerateInstanceExtensionProperties drv); simpl; auto.
- destruct (enableValidationLayers drv); reflexivity.
Qed.

Lemma evaluated_quiet (devices : list Z) :
forallb init_event (evaluated devices) = true.
Proof. induction devices; simpl; auto. Qed.

Lemma evaluated_app (a b : list Z) :
evaluated (a ++ b) = evaluated a ++ evaluated b.
Proof. unfold evaluated. apply flat_map_app. Qed.

(** Each step of [initVulkan], entered with the wrapper it fills still
    empty, makes only initialization calls and leaves the other members
    as they were. *)
Lemma createInstance_quiet (app : HelloTriangleApplication) :
VDeleter.object (instance app) = VK_NULL_HANDLE ->
forallb init_event (snd (createInstance drv app)) = true /\
callback (snd (fst (createInstance drv app))) = callback app /\
device (snd (fst (createInstance drv app))) = device app /\
physicalDevice (snd (fst (createInstance drv app))) = physicalDevice app.
Proof.
intros E. rewrite createInstance_eq.
destruct layers_missing; cbn [fst snd].
- auto using preamble_quiet.
- rewrite (release_of_empty m_instance) by exact E.
  rewrite forallb_app, preamble_quiet. auto.
Qed.

Lemma setupDebugCallback_quiet (app : HelloTriangleApplication) :
VDeleter.object (callback app) = VK_NULL_HANDLE ->
forallb init_event (snd (setupDebugCallback drv app)) = true /\
instance (snd (fst (setupDebugCallback drv app))) = instance app /\
device (snd (fst (setupDebugCallback drv app))) = device app /\
physicalDevice (snd (fst (setupDebugCallback drv app))) = physicalDevice app.
Proof.
intros E. rewrite setupDebugCallback_eq.
destruct (negb (enableValidationLayers drv)); cbn [fst snd]; auto.
rewrite (release_of_empty m_callback) by exact E. auto.
Qed.

Lemma pick_loop_quiet (devices : list Z) (app : HelloTriangleApplication) :
forallb init_event (snd (pickPhysicalDevice_loop drv devices app)) = true /\
fst (fst (pickPhysicalDevice_loop drv devices app)) = Returned tt /\
instance (snd (fst (pickPhysicalDevice_loop drv devices app))) = instance app /\
callback (snd (fst (pickPhysicalDevice_loop drv devices app))) = callback app /\
device (snd (fst (pickPhysicalDevice_loop drv devices app))) = device app.
Proof.
induction devices as [|d devices IH]; [simpl; auto|].
cbn [pickPhysicalDevice_loop]. unfold bind at 1 2 3 4 5.
rewrite isDeviceSuitable_call_eq.
destruct (isDeviceSuitable drv d).
- simpl. auto.
- destruct (pickPhysicalDevice_loop drv devices app) as [[r app'] tr].
  simpl in *. tauto.
Qed.

Lemma pickPhysicalDevice_quiet (app : HelloTriangleApplication) :
forallb init_event (snd (pickPhysicalDevice drv app)) = true /\
instance (snd (fst (pickPhysicalDevice drv app))) = instance app /\
callback (snd (fst (pickPhysicalDevice drv app))) = callback app /\
device (snd (fst (pickPhysicalDevice drv app))) = device app.
Proof.
unfold pickPhysicalDevice, bind. cbn [get emit].
destruct (Z.of_nat (length (vkEnumeratePhysicalDevices drv)) =? 0);
  [simpl; auto|].
destruct (pick_loop_quiet (vkEnumeratePhysicalDevices drv) app)
  as (Q & R & I & C & D).
destruct (pickPhysicalDevice_loop drv (vkEnumeratePhysicalDevices drv) app)
  as [[r app'] tr]. simpl in *. subst r.
destruct (physicalDevice app' =? VK_NULL_HANDLE); simpl;
  rewrite ?app_nil_r; auto.
Qed.

Lemma createLogicalDevice_quiet (app : HelloTriangleApplication) :
VDeleter.object (device app) = VK_NULL_HANDLE ->
forallb init_event (snd (createLogicalDevice drv app)) = true.
Proof.
intros E. rewrite createLogicalDevice_eq.
rewrite (release_of_empty m_device) by exact E.
destruct (negb (fst (vkCreateDevice drv (physicalDevice app)) =? VK_SUCCESS));
  reflexivity.
Qed.

Lemma initVulkan_quiet (app : HelloTriangleApplication) :
handles_empty app ->
forallb init_event (snd (initVulkan drv app)) = true.
Proof.
intros (Ei & Ec & Ed). unfold initVulkan.
destruct (createInstance_quiet app Ei) as (Q1 & C1 & D1 & _).
unfold bind at 1.
destruct (createInstance drv app) as [[[[]|w1] app1] tr1];
  cbn [fst snd] in *; [|exact Q1].
destruct (setupDebugCallback_quiet app1) as (Q2 & _ & D2 & _);
  [congruence|].
unfold bind at 1.
destruct (setupDebugCallback drv app1) as [[[[]|w2] app2] tr2];
  cbn [fst snd] in *; [|rewrite forallb_app, Q1, ?app_nil_r; exact Q2].
destruct (pickPhysicalDevice_quiet app2) as (Q3 & _ & _ & D3).
unfold bind.
destruct (pickPhysicalDevice drv app2) as [[[[]|w3] app3] tr3];
  cbn [fst snd] in *;
  [|rewrite !forallb_app, Q1, Q2, ?app_nil_r; exact Q3].
assert (Q4 : forallb init_event (snd (createLogicalDevice drv app3)) = true)
  by (apply createLogicalDevice_quiet; congruence).
destruct (createLogicalDevice drv app3) as [[r4 app4] tr4].
cbn [fst snd] in *. rewrite !forallb_app, Q1, Q2, Q3, Q4. reflexivity.
Qed.

Lemma ctor_handles_empty (w : Z) :
handles_empty (set_window w HelloTriangleApplication_ctor).
Proof. repeat split. Qed.

(** [run] from a freshly constructed object: an exception can only come
    out of [initVulkan], before the main loop is entered; nothing is
    released and nothing is written to [std::cerr] while [run] executes. *)
Lemma run_quiet :
let '(r, app1, tr1) := run drv HelloTriangleApplication_ctor in
forallb (fun e => negb (is_release e) && negb (is_cerr e)) tr1 = true /\
(forall what, r = Thrown what -> forallb init_event tr1 = true).
Proof.
unfold run, bind. rewrite initWindow_eq.
pose proof (initVulkan_quiet (ctor_handles_empty (glfwCreateWindow drv))) as Q.
destruct (initVulkan drv (set_window (glfwCreateWindow drv)
                            HelloTriangleApplication_ctor))
  as [[[[]|w] app1] tr1]; cbn [fst snd] in Q.
- rewrite mainLoop_eq. split; [|discriminate].
  rewrite !forallb_app. cbn [forallb].
  assert (W : forall l, forallb init_event l = true ->
              forallb (fun e => negb (is_release e) && negb (is_cerr e)) l = true).
  { intros l. rewrite !forallb_forall. intros H e Hin.
    specialize (H e Hin). unfold init_event in H.
    destruct (is_release e), (is_cerr e), (is_mainLoop e); auto. }
  rewrite (W _ Q). simpl.
  induction (glfwWindowShouldClose drv); simpl; auto.
- assert (Q' : forallb init_event
           ([E_glfwInit; E_glfwWindowHint; E_glfwWindowHint; E_glfwCreateWindow]
            ++ tr1) = true) by (rewrite forallb_app, Q; reflexivity).
  split; [|intros; exact Q'].
  rewrite forallb_forall in *. intros e Hin. specialize (Q' e Hin).
  unfold init_event in Q'.
  destruct (is_release e), (is_cerr e), (is_mainLoop e); auto.
Qed.

End Execution.

(* ------------------------------------------------------------------ *)
(** ** Fatal errors, end to end *)

(** [main] dies of the error [what], detected by the call [detected_at]:
    [run] leaves by the exception right after that call, [main] writes the
    message to [std::cerr] and returns [EXIT_FAILURE], which is not zero;
    the main loop is never entered, the message is the only line on
    [std::cerr], nothing is released before the report, and after it the
    destructor of [app] releases the handles created so far and leaves
    every wrapper empty. *)
Definition fatal {hdr : Header} (drv : Driver) (what : string)
  (detected_at : Event) : Prop :=
  exists app1 tr,
    run drv HelloTriangleApplication_ctor
      = (Thrown what, app1, tr ++ [detected_at]) /\
    main drv
      = (EXIT_FAILURE, tr ++ [detected_at; E_cerr what] ++ teardown app1) /\
    EXIT_FAILURE <> 0 /\
    (forall e, In e (snd (main drv)) -> is_mainLoop e = false) /\
    (forall line, In (E_cerr line) (snd (main drv)) -> line = what) /\
    (forall e, In e (tr ++ [detected_at]) -> is_release e = false) /\
    HelloTriangleApplication_dtor app1
      = (Returned tt, emptied app1, teardown app1).

(** The first three steps of [main] succeed: the required layers are
    there, the instance is created and, in a debug build, so is the debug
    callback. *)
Definition instance_ready {hdr : Header} (drv : Driver) : Prop :=
  layers_missing drv = false /\
  fst (vkCreateInstance drv) = VK_SUCCESS /\
  (enableValidationLayers drv = true -> proxy_result drv = VK_SUCCESS).

Section Fatal.
Context {hdr : Header}.
Variable drv : Driver.

Lemma teardown_releases (app : HelloTriangleApplication) :
forall e, In e (teardown app) -> is_release e = true.
Proof.
intros e. unfold teardown, release_of. rewrite !in_app_iff.
intros [H|[H|H]];
  match type of H with In _ (if ?c then _ else _) => destruct c end;
  simpl in H; try contradiction; destruct H as [<-|[]]; reflexivity.
Qed.

Lemma thrown_is_fatal (what : string) (app1 : HelloTriangleApplication)
  (tr : list Event) (detected_at : Event) :
run drv HelloTriangleApplication_ctor = (Thrown what, app1, tr ++ [detected_at]) ->
fatal drv what detected_at.
Proof.
intros E. exists app1, tr.
pose proof (run_quiet drv) as Q. rewrite E in Q. destruct Q as [Q1 Q2].
specialize (Q2 what eq_refl). rewrite forallb_forall in Q1, Q2.
assert (Em : main drv =
  (EXIT_FAILURE, tr ++ [detected_at; E_cerr what] ++ teardown app1)).
{ rewrite main_eq, E. f_equal. rewrite <- !app_assoc. reflexivity. }
split; [exact E|]. split; [exact Em|]. split; [apply EXIT_FAILURE_nonzero|].
assert (Split : forall e, In e (snd (main drv)) ->
   In e (tr ++ [detected_at]) \/ e = E_cerr what \/ In e (teardown app1)).
{ rewrite Em. cbn [snd]. intros e. rewrite !in_app_iff. simpl.
  intuition (subst; auto). }
split; [|split; [|split]].
- intros e Hin. destruct (Split e Hin) as [H|[->|H]].
  + specialize (Q2 e H). unfold init_event in Q2.
    destruct (is_mainLoop e); auto.
    rewrite andb_false_r in Q2. discriminate.
  + reflexivity.
  + apply teardown_releases in H. destruct e; try discriminate; reflexivity.
- intros line Hin. destruct (Split _ Hin) as [H|[H|H]].
  + specialize (Q1 _ H). discriminate.
  + congruence.
  + apply teardown_releases in H. discriminate.
- intros e H. specialize (Q1 e H). destruct (is_release e); auto.
- apply dtor_eq.
Qed.

(** The state [initVulkan] starts from. *)
Definition app0 : HelloTriangleApplication :=
  set_window (glfwCreateWindow drv) HelloTriangleApplication_ctor.

(** The state after [createInstance] returned. *)
Definition app_instance : HelloTriangleApplication :=
  member_set m_instance (written (snd (vkCreateInstance drv))) app0.

(** The state after [setupDebugCallback] returned. *)
Definition app_callback : HelloTriangleApplication :=
  if enableValidationLayers drv
  then member_set m_callback (proxy_written drv) app_instance
  else app_instance.

Lemma negb_eqb_false (a b : Z) : a = b -> negb (a =? b) = false.
Proof. intros ->. now rewrite Z.eqb_refl. Qed.

Lemma negb_eqb_true (a b : Z) : a <> b -> negb (a =? b) = true.
Proof. intros H. apply Z.eqb_neq in H. now rewrite H. Qed.

Lemma run_eq :
run drv HelloTriangleApplication_ctor =
  (fst (fst (initVulkan drv app0)), snd (fst (initVulkan drv app0)),
   [E_glfwInit; E_glfwWindowHint; E_glfwWindowHint; E_glfwCreateWindow] ++
   snd (initVulkan drv app0) ++
   match fst (fst (initVulkan drv app0)) with
   | Returned _ => snd (mainLoop drv (snd (fst (initVulkan drv app0))))
   | Thrown _ => []
   end).
Proof.
unfold run, bind. rewrite initWindow_eq. fold app0.
destruct (initVulkan drv app0) as [[[[]|w] app1] tr1]; cbn [fst snd].
- rewrite mainLoop_eq. reflexivity.
- now rewrite app_nil_r.
Qed.

Lemma createInstance_returns :
layers_missing drv = false -> fst (vkCreateInstance drv) = VK_SUCCESS ->
exists tr, createInstance drv app0 = (Returned tt, app_instance, tr).
Proof.
intros Hl Hi. rewrite createInstance_eq, Hl, (negb_eqb_false Hi).
eexists. reflexivity.
Qed.

Lemma setupDebugCallback_returns :
(enableValidationLayers drv = true -> proxy_result drv = VK_SUCCESS) ->
exists tr, setupDebugCallback drv app_instance = (Returned tt, app_callback, tr).
Proof.
intros Hc. rewrite setupDebugCallback_eq. unfold app_callback.
destruct (enableValidationLayers drv); cbn [negb].
- rewrite (negb_eqb_false (Hc eq_refl)). eexists. reflexivity.
- eexists. reflexivity.
Qed.

Lemma app_callback_physicalDevice : physicalDevice app_callback = VK_NULL_HANDLE.
Proof. unfold app_callback. destruct (enableValidationLayers drv); reflexivity. Qed.

(** [initVulkan] when its first two steps return: what is left is the
    device selection and the logical device, from [app_callback]. *)
Lemma initVulkan_ready :
instance_ready drv ->
exists tr,
  initVulkan drv app0 =
    (fst (fst ((pickPhysicalDevice drv ;;; createLogicalDevice drv) app_callback)),
     snd (fst ((pickPhysicalDevice drv ;;; createLogicalDevice drv) app_callback)),
     tr ++ snd ((pickPhysicalDevice drv ;;; createLogicalDevice drv) app_callback)).
Proof.
intros (Hl & Hi & Hc).
destruct (createInstance_returns Hl Hi) as [tr1 E1].
destruct (setupDebugCallback_returns Hc) as [tr2 E2].
exists (tr1 ++ tr2). unfold initVulkan.
erewrite bind_returned by exact E1.
erewrite bind_returned by exact E2.
cbn [fst snd]. now rewrite app_assoc.
Qed.

(** The handle the instance wrapper holds once [createInstance] ran. *)
Definition instance_handle : Z :=
  VDeleter.object (written (snd (vkCreateInstance drv))).

Lemma app_callback_instance :
VDeleter.read (instance app_callback) = instance_handle.
Proof. unfold app_callback. destruct (enableValidationLayers drv); reflexivity. Qed.

Lemma initVulkan_fatal (what : string) (app1 : HelloTriangleApplication)
  (tr : list Event) (detected_at : Event) :
initVulkan drv app0 = (Thrown what, app1, tr ++ [detected_at]) ->
fatal drv what detected_at.
Proof.
intros E.
apply thrown_is_fatal with (app1 := app1)
  (tr := [E_glfwInit; E_glfwWindowHint; E_glfwWindowHint; E_glfwCreateWindow]
         ++ tr).
rewrite run_eq, E. cbn [fst snd]. now rewrite app_nil_r, app_assoc.
Qed.

Lemma fatal_layers :
layers_missing drv = true ->
fatal drv "validation layers requested, but not available!"
  E_vkEnumerateInstanceLayerProperties.
Proof.
intros Hl.
assert (En : enableValidationLayers drv = true).
{ unfold layers_missing in Hl. now apply andb_true_iff in Hl. }
eapply initVulkan_fatal with (app1 := app0)
  (tr := ((if NDEBUG drv then []
    else [E_vkEnumerateInstanceExtensionProperties;
          E_vkEnumerateInstanceExtensionProperties;
          E_cout "available extensions:"] ++
         map (fun extension => E_cout (String (ascii_of_nat 9) extension))
           (vkEnumerateInstanceExtensionProperties drv)) ++
   [E_vkEnumerateInstanceLayerProperties])).
unfold initVulkan. apply bind_thrown.
rewrite createInstance_eq, Hl. unfold preamble. rewrite En.
rewrite <- app_assoc. reflexivity.
Qed.

Lemma fatal_instance :
layers_missing drv = false ->
fst (vkCreateInstance drv) <> VK_SUCCESS ->
fatal drv "failed to create instance!" E_vkCreateInstance.
Proof.
intros Hl Hi.
eapply initVulkan_fatal with (app1 := app_instance)
  (tr := (preamble drv ++ [E_glfwGetRequiredInstanceExtensions])).
unfold initVulkan. apply bind_thrown.
rewrite createInstance_eq, Hl, (negb_eqb_true Hi).
rewrite (release_of_empty m_instance) by reflexivity.
rewrite <- app_assoc. reflexivity.
Qed.

Lemma fatal_callback :
layers_missing drv = false ->
fst (vkCreateInstance drv) = VK_SUCCESS ->
enableValidationLayers drv = true ->
proxy_result drv <> VK_SUCCESS ->
fatal drv "failed to set up debug callback!"
  (E_CreateDebugReportCallbackEXT instance_handle).
Proof.
intros Hl Hi En Hc.
destruct (createInstance_returns Hl Hi) as [tr1 E1].
eapply initVulkan_fatal with (app1 := (member_set m_callback (proxy_written drv) app_instance))
  (tr := (tr1)).
unfold initVulkan. erewrite bind_returned by exact E1.
erewrite bind_thrown; [reflexivity|].
rewrite setupDebugCallback_eq, En. cbn [negb].
rewrite (negb_eqb_true Hc).
rewrite (release_of_empty m_callback) by reflexivity. reflexivity.
Qed.

Lemma fatal_no_devices :
instance_ready drv ->
vkEnumeratePhysicalDevices drv = [] ->
fatal drv "failed to find GPUs with Vilkan support!"
  (E_vkEnumeratePhysicalDevices instance_handle).
Proof.
intros R E. destruct (initVulkan_ready R) as [tr Ei].
eapply initVulkan_fatal with (app1 := app_callback)
  (tr := (tr)).
rewrite Ei. erewrite bind_thrown by (apply pick_empty; exact E).
cbn [fst snd]. now rewrite app_callback_instance.
Qed.

Lemma fatal_no_suitable (front : list Z) (last_device : Z) :
instance_ready drv ->
vkEnumeratePhysicalDevices drv = front ++ [last_device] ->
(forall x, In x (vkEnumeratePhysicalDevices drv) ->
   isDeviceSuitable drv x = false) ->
fatal drv "no Vulkan supporting GPU can do what you need!"
  (E_vkGetPhysicalDeviceQueueFamilyProperties last_device).
Proof.
intros R E Hall. destruct (initVulkan_ready R) as [tr Ei].
eapply initVulkan_fatal with (app1 := app_callback)
  (tr := (tr ++ [E_vkEnumeratePhysicalDevices instance_handle;
          E_vkEnumeratePhysicalDevices instance_handle] ++
   evaluated front ++ [E_vkGetPhysicalDeviceQueueFamilyProperties last_device])).
rewrite Ei.
assert (NE : vkEnumeratePhysicalDevices drv <> []).
{ rewrite E. destruct front; discriminate. }
erewrite bind_thrown.
2:{ rewrite (pick_none drv app_callback NE Hall), app_callback_physicalDevice,
      Z.eqb_refl.
    reflexivity. }
cbn [fst snd]. rewrite app_callback_instance, E, evaluated_app.
f_equal. rewrite <- ?app_assoc. simpl. rewrite <- ?app_assoc. reflexivity.
Qed.

Lemma fatal_device (pre : list Z) (d : Z) (post : list Z) :
instance_ready drv ->
vkEnumeratePhysicalDevices drv = pre ++ d :: post ->
(forall x, In x pre -> isDeviceSuitable drv x = false) ->
isDeviceSuitable drv d = true ->
d <> VK_NULL_HANDLE ->
fst (vkCreateDevice drv d) <> VK_SUCCESS ->
fatal drv "failed to create logical device!" (E_vkCreateDevice d).
Proof.
intros R E Hpre Hd Hn Hf. destruct (initVulkan_ready R) as [tr Ei].
assert (Ep : exists trp,
  pickPhysicalDevice drv app_callback =
    (Returned tt, set_physicalDevice d app_callback, trp)).
{ eexists. rewrite (pick_first drv app_callback pre d post E Hpre Hd).
  apply Z.eqb_neq in Hn. rewrite Hn. reflexivity. }
destruct Ep as [trp Ep].
eapply initVulkan_fatal with (app1 := (member_set m_device (written (snd (vkCreateDevice drv d)))
     (set_physicalDevice d app_callback)))
  (tr := (tr ++ trp ++ evaluated [d])).
rewrite Ei. erewrite bind_returned by exact Ep.
rewrite createLogicalDevice_eq. cbn [physicalDevice set_physicalDevice].
rewrite (negb_eqb_true Hf). cbn [fst snd].
rewrite (release_of_empty m_device).
2:{ unfold app_callback. destruct (enableValidationLayers drv); reflexivity. }
rewrite <- !app_assoc. reflexivity.
Qed.

End Fatal.

(* ------------------------------------------------------------------ *)
(** ** Device selection *)

(** C3.  [pickPhysicalDevice] throws the "no devices" error when the
    enumeration is empty, after the counting call alone.  Otherwise it
    evaluates the devices in enumeration order up to and including the
    first suitable one, records that device in [physicalDevice] and
    evaluates none after it; it then returns normally, the recorded handle
    being a valid one (not [VK_NULL_HANDLE]).  When no device is suitable
    it has evaluated them all and, [physicalDevice] still holding its
    initializer, throws the "no suitable device" error.  For [deviceA]
    unsuitable followed by [deviceB] suitable it selects [deviceB]. *)
Theorem pickPhysicalDevice_first_suitable {hdr : Header} (drv : Driver)
  (app : HelloTriangleApplication) :
let devices := vkEnumeratePhysicalDevices drv in
let enumerate := E_vkEnumeratePhysicalDevices (VDeleter.read (instance app)) in
(devices = [] ->
 pickPhysicalDevice drv app =
   (Thrown "failed to find GPUs with Vilkan support!", app, [enumerate])) /\
(forall pre d post,
   devices = pre ++ d :: post ->
   (forall x, In x pre -> isDeviceSuitable drv x = false) ->
   isDeviceSuitable drv d = true ->
   pickPhysicalDevice drv app =
     ((if d =? VK_NULL_HANDLE
       then Thrown "no Vulkan supporting GPU can do what you need!"
       else Returned tt),
      set_physicalDevice d app,
      [enumerate; enumerate] ++ evaluated (pre ++ [d])) /\
   forall x, In (E_vkGetPhysicalDeviceQueueFamilyProperties x)
               (snd (pickPhysicalDevice drv app)) -> In x (pre ++ [d])) /\
(devices <> [] ->
 (forall x, In x devices -> isDeviceSuitable drv x = false) ->
 physicalDevice app = VK_NULL_HANDLE ->
 pickPhysicalDevice drv app =
   (Thrown "no Vulkan supporting GPU can do what you need!", app,
    [enumerate; enumerate] ++ evaluated devices)) /\
(forall deviceA deviceB,
   devices = [deviceA; deviceB] ->
   isDeviceSuitable drv deviceA = false ->
   isDeviceSuitable drv deviceB = true ->
   physicalDevice (snd (fst (pickPhysicalDevice drv app))) = deviceB /\
   (deviceB <> VK_NULL_HANDLE ->
    fst (fst (pickPhysicalDevice drv app)) = Returned tt)).
Proof.
intros devices enumerate.
assert (Ev : forall l x,
   In (E_vkGetPhysicalDeviceQueueFamilyProperties x) (evaluated l) -> In x l).
{ induction l as [|y l IH]; simpl; intros x H; auto.
  destruct H as [H|[H|H]]; auto; inversion H; auto. }
split; [|split; [|split]].
- intros E. now apply pick_empty.
- intros pre d post E Hpre Hd.
  rewrite (pick_first drv app pre d post E Hpre Hd). split; [reflexivity|].
  cbn [snd]. intros x [H|[H|H]]; try discriminate. now apply Ev.
- intros NE Hall Hnull. rewrite (pick_none drv app NE Hall), Hnull, Z.eqb_refl.
  reflexivity.
- intros deviceA deviceB E HA HB.
  assert (HpreA : forall x, In x [deviceA] -> isDeviceSuitable drv x = false)
    by (intros x [<-|[]]; exact HA).
  rewrite (pick_first drv app [deviceA] deviceB [] E HpreA HB).
  split; [reflexivity|]. intros Hn. apply Z.eqb_neq in Hn. cbn [fst].
  now rewrite Hn.
Qed.

(* ------------------------------------------------------------------ *)
(** ** Teardown order *)

Section Teardown.
Context {hdr : Header}.
Variable drv : Driver.

Lemma filter_quiet (l : list Event) :
forallb (fun e => negb (is_release e) && negb (is_cerr e)) l = true ->
filter is_release l = [].
Proof.
induction l as [|e l IH]; simpl; auto.
destruct (is_release e); simpl; [discriminate|].
destruct (is_cerr e); simpl; [discriminate|]. exact IH.
Qed.

Lemma filter_teardown (app : HelloTriangleApplication) :
filter is_release (teardown app) = teardown app.
Proof.
unfold teardown, release_of.
repeat match goal with |- context [if ?c then _ else _] => destruct c end;
  reflexivity.
Qed.

Lemma filter_none (l : list Event) :
filter is_release l = [] -> forall e, In e l -> is_release e = false.
Proof.
induction l as [|x l IH]; simpl; intros H e Hin; [contradiction|].
destruct (is_release x) eqn:R; [discriminate|].
destruct Hin as [<-|Hin]; auto.
Qed.

(** All the releases of the process are those of the destructor of
    [app], run when [main] returns. *)
Lemma main_releases :
exists app1, filter is_release (snd (main drv)) = teardown app1.
Proof.
pose proof (run_quiet drv) as Q. rewrite main_eq.
destruct (run drv HelloTriangleApplication_ctor) as [[[u|what] app1] tr1];
  destruct Q as [Q _]; exists app1; cbn [snd];
  rewrite ?filter_app, (filter_quiet _ Q), filter_teardown; reflexivity.
Qed.

Lemma instance_released_last (pre : list Event) (j : Z) (post : list Event) :
snd (main drv) = pre ++ E_vkDestroyInstance j :: post ->
forall e, In e post -> is_release e = false.
Proof.
intros E. destruct main_releases as [app1 F]. rewrite E in F.
rewrite filter_app in F. cbn [filter is_release] in F.
apply filter_none.
unfold teardown, release_of in F.
destruct (filter is_release pre) as [|e1 [|e2 [|e3 r]]];
  repeat match type of F with
         | context [if ?c then _ else _] => destruct c
         end;
  simpl in F; try discriminate; inversion F; auto;
  exfalso; eapply app_cons_not_nil; symmetry; eassumption.
Qed.

End Teardown.

(** C7.  The destructor of the application releases the scoped handles in
    the reverse of their declaration order: the device, then the debug
    callback, then the instance.  The callback's release is handed the
    value the instance wrapper holds at that moment, and the instance is
    released right after it.  In every execution of [main], no release of
    the instance precedes the release of the callback (or of the device),
    and no release at all follows the release of the instance. *)
Theorem teardown_reverse_declaration_order {hdr : Header} (drv : Driver) :
(forall app,
   HelloTriangleApplication_dtor app =
     (Returned tt, emptied app,
      release_of m_device app ++ release_of m_callback app ++
      release_of m_instance app)) /\
(forall app,
   VDeleter.object (callback app) <> VK_NULL_HANDLE ->
   VDeleter.object (instance app) <> VK_NULL_HANDLE ->
   exists pre,
     snd (HelloTriangleApplication_dtor app) =
       pre ++ [E_DestroyDebugReportCallbackEXT
                 (VDeleter.object (instance app))
                 (VDeleter.object (callback app));
               E_vkDestroyInstance (VDeleter.object (instance app))] /\
     forall j, ~ In (E_vkDestroyInstance j) pre) /\
(forall pre i c post,
   snd (main drv) = pre ++ E_DestroyDebugReportCallbackEXT i c :: post ->
   forall j, ~ In (E_vkDestroyInstance j) pre) /\
(forall pre d post,
   snd (main drv) = pre ++ E_vkDestroyDevice d :: post ->
   forall j, ~ In (E_vkDestroyInstance j) pre) /\
(forall pre j post,
   snd (main drv) = pre ++ E_vkDestroyInstance j :: post ->
   forall e, In e post -> is_release e = false).
Proof.
assert (Before : forall pre e post,
   is_release e = true ->
   snd (main drv) = pre ++ e :: post ->
   forall j, ~ In (E_vkDestroyInstance j) pre).
{ intros pre e post R E j Hin.
  apply in_split in Hin. destruct Hin as (p1 & p2 & ->).
  rewrite <- app_assoc in E. cbn [List.app] in E.
  pose proof (instance_released_last drv _ _ _ E e) as H.
  rewrite H in R; [discriminate|]. apply in_or_app. simpl. auto. }
split; [|split; [|split; [|split]]].
- intros app. apply dtor_eq.
- intros app Hc Hi. exists (release_of m_device app).
  rewrite dtor_eq. cbn [snd]. unfold teardown. split.
  + f_equal. unfold release_of. cbn [member_get deleter].
    destruct (Z.eq_dec (VDeleter.object (callback app)) VK_NULL_HANDLE);
      [contradiction|].
    destruct (Z.eq_dec (VDeleter.object (instance app)) VK_NULL_HANDLE);
      [contradiction|]. reflexivity.
  + intros j. unfold release_of.
    destruct (Z.eq_dec (VDeleter.object (member_get m_device app)) VK_NULL_HANDLE);
      simpl; [tauto|]. intros [H|[]]. discriminate.
- intros pre i c post E. eapply Before; eauto. reflexivity.
- intros pre d post E. eapply Before; eauto. reflexivity.
- intros pre j post E. eapply instance_released_last; eauto.
Qed.

(* ------------------------------------------------------------------ *)
(** ** Fatal errors *)

(** C8.  Each fatal condition is detected by one call, and the exception
    leaves [run] right after that call, reaches [main], which writes the
    message to [std::cerr] and returns [EXIT_FAILURE], a non-zero status:
    a required validation layer is missing; the instance cannot be
    created; the debug callback cannot be created; no device is
    enumerated; no enumerated device is suitable; the logical device
    cannot be created.  In each case the main loop is never entered, the
    message is the only line on [std::cerr], and the handles created
    before the error are released by the destructor of [app] (see
    [fatal]).  Whatever exception leaves [run], [main] reports it and
    returns [EXIT_FAILURE]. *)
Theorem fatal_errors_unwind_to_main {hdr : Header} (drv : Driver) :
(enableValidationLayers drv = true ->
 checkValidationLayerSupport validationLayers
   (vkEnumerateInstanceLayerProperties drv) = false ->
 fatal drv "validation layers requested, but not available!"
   E_vkEnumerateInstanceLayerProperties) /\
(layers_missing drv = false ->
 fst (vkCreateInstance drv) <> VK_SUCCESS ->
 fatal drv "failed to create instance!" E_vkCreateInstance) /\
(layers_missing drv = false ->
 fst (vkCreateInstance drv) = VK_SUCCESS ->
 enableValidationLayers drv = true ->
 proxy_result drv <> VK_SUCCESS ->
 fatal drv "failed to set up debug callback!"
   (E_CreateDebugReportCallbackEXT (instance_handle drv))) /\
(instance_ready drv ->
 vkEnumeratePhysicalDevices drv = [] ->
 fatal drv "failed to find GPUs with Vilkan support!"
   (E_vkEnumeratePhysicalDevices (instance_handle drv))) /\
(forall front last_device,
   instance_ready drv ->
   vkEnumeratePhysicalDevices drv = front ++ [last_device] ->
   (forall x, In x (vkEnumeratePhysicalDevices drv) ->
      isDeviceSuitable drv x = false) ->
   fatal drv "no Vulkan supporting GPU can do what you need!"
     (E_vkGetPhysicalDeviceQueueFamilyProperties last_device)) /\
(forall pre d post,
   instance_ready drv ->
   vkEnumeratePhysicalDevices drv = pre ++ d :: post ->
   (forall x, In x pre -> isDeviceSuitable drv x = false) ->
   isDeviceSuitable drv d = true ->
   d <> VK_NULL_HANDLE ->
   fst (vkCreateDevice drv d) <> VK_SUCCESS ->
   fatal drv "failed to create logical device!" (E_vkCreateDevice d)) /\
(forall what app1 tr,
   run drv HelloTriangleApplication_ctor = (Thrown what, app1, tr) ->
   main drv = (EXIT_FAILURE, tr ++ [E_cerr what] ++ teardown app1) /\
   EXIT_FAILURE <> 0).
Proof.
split; [|split; [|split; [|split; [|split; [|split]]]]].
- intros En Hc. apply fatal_layers. unfold layers_missing. now rewrite En, Hc.
- apply fatal_instance.
- apply fatal_callback.
- apply fatal_no_devices.
- intros front last_device. apply fatal_no_suitable.
- intros pre d post. apply fatal_device.
- intros what app1 tr E. split; [|apply EXIT_FAILURE_nonzero].
  rewrite main_eq, E. reflexivity.
Qed.

(** C10.  [debugCallback] returns [VK_FALSE] whatever its eight arguments
    are. *)
Theorem debugCallback_returns_VK_FALSE {hdr : Header}
  (flags objType obj location code : Z) (layerPrefix msg : string)
  (userData : Z) :
fst (debugCallback flags objType obj location code layerPrefix msg userData)
  = VK_FALSE.
Proof. reflexivity. Qed.

(* ================================================================== *)
(** * Concrete executions *)
(* ================================================================== *)

Module Examples.

(** A compute-only family and a graphics family. *)
Definition compute_family : VkQueueFamilyProperties :=
  {| queueFlags := VK_QUEUE_COMPUTE_BIT_1_0; queueCount := 2 |}.

Definition graphics_family : VkQueueFamilyProperties :=
  {| queueFlags := 1%N; queueCount := 1 |}.

(** Device 10 has no graphics queue; device 20 has one at index 1;
    device 30 has one at index 0. *)
Definition families (dev : Z) : list VkQueueFamilyProperties :=
  if dev =? 20 then [compute_family; graphics_family]
  else if dev =? 30 then [graphics_family]
  else [compute_family].

(** A debug build on a machine where every call succeeds, with the given
    devices and the given answer to [vkCreateDevice]. *)
Definition machine (devices : list Z) (create_device : Z) : Driver :=
  {| NDEBUG := false;
     glfwCreateWindow := 7;
     glfwWindowShouldClose := 2;
     vkEnumerateInstanceExtensionProperties := ["VK_KHR_surface"%string];
     vkEnumerateInstanceLayerProperties :=
       [{| layerName := "VK_LAYER_LUNARG_standard_validation" |}];
     vkCreateInstance := (0, Some 100);
     vkGetInstanceProcAddr_create := Some (0, Some 200);
     vkEnumeratePhysicalDevices := devices;
     vkGetPhysicalDeviceProperties := fun _ => 0;
     vkGetPhysicalDeviceFeatures := fun _ => false;
     vkGetPhysicalDeviceQueueFamilyProperties := families;
     vkCreateDevice := fun _ => (create_device, Some 300);
     vkGetDeviceQueue := fun _ _ => 400 |}.

(** A successful execution: everything created is released, in reverse
    declaration order, after the window was closed. *)
Example main_success :
main (hdr := vulkan_1_0) (machine [10; 20; 30] 0) =
  (0,
   [E_glfwInit; E_glfwWindowHint; E_glfwWindowHint; E_glfwCreateWindow;
    E_vkEnumerateInstanceExtensionProperties;
    E_vkEnumerateInstanceExtensionProperties;
    E_cout "available extensions:";
    E_cout (String (ascii_of_nat 9) "VK_KHR_surface");
    E_vkEnumerateInstanceLayerProperties;
    E_vkEnumerateInstanceLayerProperties;
    E_glfwGetRequiredInstanceExtensions; E_vkCreateInstance;
    E_CreateDebugReportCallbackEXT 100;
    E_vkEnumeratePhysicalDevices 100; E_vkEnumeratePhysicalDevices 100;
    E_vkGetPhysicalDeviceQueueFamilyProperties 10;
    E_vkGetPhysicalDeviceQueueFamilyProperties 10;
    E_vkGetPhysicalDeviceQueueFamilyProperties 20;
    E_vkGetPhysicalDeviceQueueFamilyProperties 20;
    E_vkGetPhysicalDeviceQueueFamilyProperties 20;
    E_vkGetPhysicalDeviceQueueFamilyProperties 20;
    E_vkCreateDevice 20; E_vkGetDeviceQueue 300 1;
    E_glfwPollEvents; E_glfwPollEvents; E_glfwDestroyWindow 7;
    E_glfwTerminate;
    E_vkDestroyDevice 300; E_DestroyDebugReportCallbackEXT 100 200;
    E_vkDestroyInstance 100]).
Proof. vm_compute. reflexivity. Qed.

(** C4 as stated fails on an empty wrapper: [replace()] on a freshly
    constructed handle does not call the release function at all, so it is
    not called on the prior value [VK_NULL_HANDLE]. *)
Lemma replace_on_empty_calls_no_release :
VDeleter.deleted
  (snd (VDeleter.replace Z.eq_dec 0 (VDeleter.construct 0))) = [] /\
~ In 0 (VDeleter.deleted
          (snd (VDeleter.replace Z.eq_dec 0 (VDeleter.construct 0)))).
Proof. split; [reflexivity|]. simpl. tauto. Qed.

Lemma release_at_most_once_witness :
5 <> 0 /\
VDeleter.deleted
  (snd (VDeleter.run Z.eq_dec 0 [VDeleter.Assign 5; VDeleter.Destroy]
          (VDeleter.construct 0))) = [5].
Proof.
split; [lia|].
apply (proj1 (@VDeleter.release_at_most_once_per_held_value
                Z Z.eq_dec 0 5 (VDeleter.construct 0) [])).
lia.
Defined.

Lemma replace_releases_nonempty_prior_witness :
VDeleter.object (VDeleter.Build 5) <> 0 /\
snd (VDeleter.replace Z.eq_dec 0 (VDeleter.Build 5)) =
  [VDeleter.Deleter 5; VDeleter.Store 0].
Proof.
split; [simpl; lia|].
apply (proj1 (@VDeleter.replace_releases_nonempty_prior
                Z Z.eq_dec 0 (VDeleter.Build 5))).
simpl. lia.
Defined.

Lemma findQueueFamilies_lowest_match_witness :
Z.of_nat (length (families 20)) <= INT_MAX /\
graphicsFamily (findQueueFamilies (hdr := vulkan_1_0) (machine [20] 0) 20) = 1.
Proof.
assert (H : Z.of_nat (length (families 20)) <= INT_MAX)
  by (unfold INT_MAX; simpl; lia).
split; [exact H|].
apply (proj1 (@findQueueFamilies_lowest_match vulkan_1_0 (machine [20] 0) 20 H)
         [compute_family] graphics_family []).
- reflexivity.
- intros g [<-|[]]. right. reflexivity.
- simpl. lia.
- simpl. lia.
Defined.

Lemma isDeviceSuitable_is_completeness_witness :
Z.of_nat (length (families 10)) <= INT_MAX /\
(isDeviceSuitable (hdr := vulkan_1_0) (machine [10] 0) 10 = true <->
 graphicsFamily (findQueueFamilies (hdr := vulkan_1_0) (machine [10] 0) 10)
   <> -1).
Proof.
assert (H : Z.of_nat (length (families 10)) <= INT_MAX)
  by (unfold INT_MAX; simpl; lia).
split; [exact H|].
apply (proj1 (proj2 (proj2
  (@isDeviceSuitable_is_completeness vulkan_1_0 (machine [10] 0) 10)))).
exact H.
Defined.

Lemma checkValidationLayerSupport_exact_witness :
~ present "B" [{| layerName := "A" |}] /\
checkValidationLayerSupport ["A"; "B"]%string [{| layerName := "A" |}] = false.
Proof.
assert (H : ~ present "B" [{| layerName := "A" |}]).
{ intros (lp & [<-|[]] & E). simpl in E. discriminate. }
split; [exact H|].
apply (proj1 (proj2 (@checkValidationLayerSupport_exact
                       ["A"; "B"]%string [{| layerName := "A" |}]))
         ["A"%string] "B"%string []).
- reflexivity.
- exact H.
Defined.

Lemma pickPhysicalDevice_first_suitable_witness :
pickPhysicalDevice (hdr := vulkan_1_0) (machine [10; 20; 30] 0)
  (HelloTriangleApplication_ctor (hdr := vulkan_1_0)) =
  (Returned tt,
   set_physicalDevice 20 (HelloTriangleApplication_ctor (hdr := vulkan_1_0)),
   [E_vkEnumeratePhysicalDevices 0; E_vkEnumeratePhysicalDevices 0;
    E_vkGetPhysicalDeviceQueueFamilyProperties 10;
    E_vkGetPhysicalDeviceQueueFamilyProperties 10;
    E_vkGetPhysicalDeviceQueueFamilyProperties 20;
    E_vkGetPhysicalDeviceQueueFamilyProperties 20]).
Proof.
apply (proj1 (proj2 (@pickPhysicalDevice_first_suitable vulkan_1_0
                       (machine [10; 20; 30] 0)
                       (HelloTriangleApplication_ctor (hdr := vulkan_1_0))))
         [10] 20 [30]).
- reflexivity.
- intros x [<-|[]]. reflexivity.
- reflexivity.
Defined.

Lemma teardown_reverse_declaration_order_witness :
snd (main (hdr := vulkan_1_0) (machine [10; 20; 30] 0)) =
  firstn 28 (snd (main (hdr := vulkan_1_0) (machine [10; 20; 30] 0))) ++
  E_DestroyDebugReportCallbackEXT 100 200 :: [E_vkDestroyInstance 100] /\
~ In (E_vkDestroyInstance 100)
     (firstn 28 (snd (main (hdr := vulkan_1_0) (machine [10; 20; 30] 0)))).
Proof.
assert (H : snd (main (hdr := vulkan_1_0) (machine [10; 20; 30] 0)) =
  firstn 28 (snd (main (hdr := vulkan_1_0) (machine [10; 20; 30] 0))) ++
  E_DestroyDebugReportCallbackEXT 100 200 :: [E_vkDestroyInstance 100])
  by (vm_compute; reflexivity).
split; [exact H|].
apply (proj1 (proj2 (proj2 (@teardown_reverse_declaration_order vulkan_1_0
                              (machine [10; 20; 30] 0))))
         _ 100 200 [E_vkDestroyInstance 100] H 100).
Defined.

Lemma fatal_errors_unwind_to_main_witness :
fatal (hdr := vulkan_1_0) (machine [10] 0)
  "no Vulkan supporting GPU can do what you need!"
  (E_vkGetPhysicalDeviceQueueFamilyProperties 10) /\
fatal (hdr := vulkan_1_0) (machine [10; 20] (-3))
  "failed to create logical device!" (E_vkCreateDevice 20).
Proof.
split.
- apply (proj1 (proj2 (proj2 (proj2 (proj2
    (@fatal_errors_unwind_to_main vulkan_1_0 (machine [10] 0))))))
    [] 10).
  + repeat split.
  + reflexivity.
  + intros x [<-|[]]. reflexivity.
- apply (proj1 (proj2 (proj2 (proj2 (proj2 (proj2
    (@fatal_errors_unwind_to_main vulkan_1_0 (machine [10; 20] (-3))))))))
    [10] 20 []).
  + repeat split.
  + reflexivity.
  + intros x [<-|[]]. reflexivity.
  + reflexivity.
  + simpl. lia.
  + simpl. lia.
Defined.

End Examples.

(* ================================================================== *)
(** * Further properties of the selection *)
(* ================================================================== *)

(** X4.  For a family list within the range of [int], a device is
    suitable exactly when one of its queue families has a non-zero queue
    count and the graphics bit set. *)
Theorem isDeviceSuitable_iff_graphics_family {hdr : Header} (drv : Driver)
  (dev : Z) :
Z.of_nat (length (vkGetPhysicalDeviceQueueFamilyProperties drv dev))
  <= INT_MAX ->
(isDeviceSuitable drv dev = true <->
 exists f, In f (vkGetPhysicalDeviceQueueFamilyProperties drv dev) /\
           queueCount f <> 0%N /\
           N.land (queueFlags f) VK_QUEUE_GRAPHICS_BIT <> 0%N).
Proof.
intros Hmax. unfold isDeviceSuitable, findQueueFamilies, findQueueFamilies_of.
destruct (first_qualifying (vkGetPhysicalDeviceQueueFamilyProperties drv dev))
  as [Hnone|(pre & f & post & E & Hpre & Hf)].
- rewrite loop_no_match by (auto; lia). cbn. split; [discriminate|].
  intros (f & Hin & Hc & Hg).
  assert (Q : qualifies f = true) by (apply qualifies_iff; auto).
  rewrite (Hnone f Hin) in Q. discriminate.
- rewrite E in Hmax |- *. rewrite length_app in Hmax.
  rewrite loop_first_match by (auto; lia). cbn.
  split.
  + intros _. exists f. apply qualifies_iff in Hf. split; [|exact Hf].
    apply in_or_app. simpl. auto.
  + intros _. unfold isComplete. cbn. apply Z.geb_le. lia.
Qed.

(** X5.  For a family list within the range of [int], an index returned
    by [findQueueFamilies] other than the sentinel -1 is a valid position
    in the device's family list, the family at that position has a
    non-zero queue count and the graphics bit set, and no family before it
    has both. *)
Theorem findQueueFamilies_index_is_valid {hdr : Header} (drv : Driver)
  (dev : Z) :
Z.of_nat (length (vkGetPhysicalDeviceQueueFamilyProperties drv dev))
  <= INT_MAX ->
graphicsFamily (findQueueFamilies drv dev) <> -1 ->
0 <= graphicsFamily (findQueueFamilies drv dev)
  < Z.of_nat (length (vkGetPhysicalDeviceQueueFamilyProperties drv dev)) /\
exists f,
  nth_error (vkGetPhysicalDeviceQueueFamilyProperties drv dev)
    (Z.to_nat (graphicsFamily (findQueueFamilies drv dev))) = Some f /\
  queueCount f <> 0%N /\
  N.land (queueFlags f) VK_QUEUE_GRAPHICS_BIT <> 0%N /\
  forall g,
    In g (firstn (Z.to_nat (graphicsFamily (findQueueFamilies drv dev)))
            (vkGetPhysicalDeviceQueueFamilyProperties drv dev)) ->
    qualifies g = false.
Proof.
intros Hmax. unfold findQueueFamilies, findQueueFamilies_of.
destruct (first_qualifying (vkGetPhysicalDeviceQueueFamilyProperties drv dev))
  as [Hnone|(pre & f & post & E & Hpre & Hf)].
- rewrite loop_no_match by (auto; lia). cbn. congruence.
- rewrite E in Hmax |- *. rewrite length_app in Hmax |- *.
  rewrite loop_first_match by (auto; lia). cbn [fst graphicsFamily length].
  intros _. rewrite Z.add_0_l, Nat2Z.id. split; [lia|].
  exists f. apply qualifies_iff in Hf. destruct Hf as [Hc Hg].
  repeat split; auto.
  + rewrite nth_error_app2 by lia. now rewrite Nat.sub_diag.
  + intros g Hin. apply Hpre.
    rewrite firstn_app, Nat.sub_diag, firstn_all in Hin.
    simpl in Hin. now rewrite app_nil_r in Hin.
Qed.

Section Scan.
Context {hdr : Header}.
Variable drv : Driver.

(** The devices the scan of [pickPhysicalDevice] evaluates: up to and
    including the first suitable one. *)
Fixpoint scanned (devices : list Z) : list Z :=
  match devices with
  | [] => []
  | dev :: rest =>
      if isDeviceSuitable drv dev then [dev] else dev :: scanned rest
  end.

Lemma pick_loop_eq (devices : list Z) (app : HelloTriangleApplication) :
pickPhysicalDevice_loop drv devices app =
  (Returned tt,
   match find (isDeviceSuitable drv) devices with
   | Some d => set_physicalDevice d app
   | None => app
   end,
   evaluated (scanned devices)).
Proof.
induction devices as [|d devices IH]; [reflexivity|].
cbn [pickPhysicalDevice_loop find scanned]. unfold bind at 1.
rewrite isDeviceSuitable_call_eq.
destruct (isDeviceSuitable drv d); [reflexivity|].
rewrite IH. reflexivity.
Qed.

Lemma pick_eq (app : HelloTriangleApplication) :
pickPhysicalDevice drv app =
  if Z.of_nat (length (vkEnumeratePhysicalDevices drv)) =? 0
  then (Thrown "failed to find GPUs with Vilkan support!", app,
        [E_vkEnumeratePhysicalDevices (VDeleter.read (instance app))])
  else
    match find (isDeviceSuitable drv) (vkEnumeratePhysicalDevices drv) with
    | Some d =>
        ((if d =? VK_NULL_HANDLE
          then Thrown "no Vulkan supporting GPU can do what you need!"
          else Returned tt),
         set_physicalDevice d app,
         [E_vkEnumeratePhysicalDevices (VDeleter.read (instance app));
          E_vkEnumeratePhysicalDevices (VDeleter.read (instance app))] ++
         evaluated (scanned (vkEnumeratePhysicalDevices drv)))
    | None =>
        ((if physicalDevice app =? VK_NULL_HANDLE
          then Thrown "no Vulkan supporting GPU can do what you need!"
          else Returned tt),
         app,
         [E_vkEnumeratePhysicalDevices (VDeleter.read (instance app));
          E_vkEnumeratePhysicalDevices (VDeleter.read (instance app))] ++
         evaluated (scanned (vkEnumeratePhysicalDevices drv)))
    end.
Proof.
unfold pickPhysicalDevice, bind. cbn [get emit].
destruct (Z.of_nat (length (vkEnumeratePhysicalDevices drv)) =? 0);
  [reflexivity|].
rewrite pick_loop_eq.
destruct (find (isDeviceSuitable drv) (vkEnumeratePhysicalDevices drv)) as [d|].
- cbn [physicalDevice set_physicalDevice].
  destruct (d =? VK_NULL_HANDLE); cbn; rewrite ?app_nil_r; reflexivity.
- destruct (physicalDevice app =? VK_NULL_HANDLE); cbn; rewrite ?app_nil_r;
    reflexivity.
Qed.

Lemma scanned_sub (devices : list Z) :
forall x, In x (scanned devices) -> In x devices.
Proof.
induction devices as [|d devices IH]; simpl; auto.
destruct (isDeviceSuitable drv d); simpl; intuition.
Qed.

End Scan.

(** X6.  Called with [physicalDevice] at its initializer,
    [pickPhysicalDevice] returns normally exactly when the first suitable
    device of the enumeration exists and is not [VK_NULL_HANDLE]; the
    device it has then recorded is one of the enumerated devices, is
    suitable, and every other member of the object is as before.  It only
    ever queries enumerated devices. *)
Theorem pickPhysicalDevice_postcondition {hdr : Header} (drv : Driver)
  (app : HelloTriangleApplication) :
physicalDevice app = VK_NULL_HANDLE ->
(fst (fst (pickPhysicalDevice drv app)) = Returned tt <->
 exists d, find (isDeviceSuitable drv) (vkEnumeratePhysicalDevices drv)
             = Some d /\ d <> VK_NULL_HANDLE) /\
(forall app' tr,
   pickPhysicalDevice drv app = (Returned tt, app', tr) ->
   In (physicalDevice app') (vkEnumeratePhysicalDevices drv) /\
   isDeviceSuitable drv (physicalDevice app') = true /\
   physicalDevice app' <> VK_NULL_HANDLE /\
   window app' = window app /\ instance app' = instance app /\
   callback app' = callback app /\ device app' = device app /\
   graphicsQueue app' = graphicsQueue app) /\
(forall x,
   In (E_vkGetPhysicalDeviceQueueFamilyProperties x)
      (snd (pickPhysicalDevice drv app)) ->
   In x (vkEnumeratePhysicalDevices drv)).
Proof.
intros Hnull. rewrite pick_eq, Hnull, Z.eqb_refl.
assert (Ev : forall l x,
   In (E_vkGetPhysicalDeviceQueueFamilyProperties x) (evaluated l) -> In x l).
{ induction l as [|y l IH]; simpl; intros x H; auto.
  destruct H as [H|[H|H]]; auto; inversion H; auto. }
destruct (Z.of_nat (length (vkEnumeratePhysicalDevices drv)) =? 0) eqn:L.
- assert (E : vkEnumeratePhysicalDevices drv = []).
  { destruct (vkEnumeratePhysicalDevices drv); [reflexivity|].
    apply Z.eqb_eq in L. simpl in L. lia. }
  rewrite E. cbn [fst snd find]. split; [|split].
  + split; [discriminate|]. intros (d & H & _). discriminate.
  + intros app' tr H. discriminate.
  + intros x [H|[]]. discriminate.
- destruct (find (isDeviceSuitable drv) (vkEnumeratePhysicalDevices drv))
    as [d|] eqn:F; cbn [fst snd].
  + destruct (Z.eqb_spec d VK_NULL_HANDLE) as [Ed|Nd]; split; [|split| |split].
    * split; [discriminate|]. intros (d' & H & Hn). congruence.
    * intros app' tr H. discriminate.
    * intros x [H|[H|H]]; try discriminate.
      eapply scanned_sub, Ev, H.
    * split; eauto.
    * intros app' tr H. inversion H; subst app' tr. cbn.
      apply find_some in F. tauto.
    * intros x [H|[H|H]]; try discriminate.
      eapply scanned_sub, Ev, H.
  + split; [|split].
    * split; [discriminate|]. intros (d & H & _). discriminate.
    * intros app' tr H. discriminate.
    * intros x [H|[H|H]]; try discriminate.
      eapply scanned_sub, Ev, H.
Qed.

(* ================================================================== *)
(** * The whole execution in closed form *)
(* ================================================================== *)

Section Plan.
Context {hdr : Header}.
Variable drv : Driver.

(** The state after the device scan recorded [d]. *)
Definition app_selected (d : Z) : HelloTriangleApplication :=
  set_physicalDevice d (app_callback drv).

(** The state after [vkCreateDevice] was called for [d]. *)
Definition app_device (d : Z) : HelloTriangleApplication :=
  member_set m_device (written (snd (vkCreateDevice drv d))) (app_selected d).

(** The calls of [createInstance] when the layers are not missing. *)
Definition instance_calls : list Event :=
  preamble drv ++ [E_glfwGetRequiredInstanceExtensions; E_vkCreateInstance].

(** The calls of [setupDebugCallback]. *)
Definition callback_calls : list Event :=
  if enableValidationLayers drv
  then [E_CreateDebugReportCallbackEXT (instance_handle drv)]
  else [].

(** The calls of [pickPhysicalDevice] when a device is enumerated. *)
Definition scan_calls : list Event :=
  [E_vkEnumeratePhysicalDevices (instance_handle drv);
   E_vkEnumeratePhysicalDevices (instance_handle drv)] ++
  evaluated (scanned drv (vkEnumeratePhysicalDevices drv)).

(** The calls of [createLogicalDevice] up to [vkCreateDevice]. *)
Definition device_calls (d : Z) : list Event :=
  evaluated [d] ++ [E_vkCreateDevice d].

(** [initVulkan] on a freshly constructed object, decision by decision. *)
Definition initVulkan_plan
  : outcome unit * HelloTriangleApplication * list Event :=
  if layers_missing drv
  then (Thrown "validation layers requested, but not available!",
        app0 drv, preamble drv)
  else if negb (fst (vkCreateInstance drv) =? VK_SUCCESS)
  then (Thrown "failed to create instance!", app_instance drv, instance_calls)
  else if enableValidationLayers drv && negb (proxy_result drv =? VK_SUCCESS)
  then (Thrown "failed to set up debug callback!", app_callback drv,
        instance_calls ++ callback_calls)
  else if Z.of_nat (length (vkEnumeratePhysicalDevices drv)) =? 0
  then (Thrown "failed to find GPUs with Vilkan support!", app_callback drv,
        instance_calls ++ callback_calls ++
        [E_vkEnumeratePhysicalDevices (instance_handle drv)])
  else
    match find (isDeviceSuitable drv) (vkEnumeratePhysicalDevices drv) with
    | None =>
        (Thrown "no Vulkan supporting GPU can do what you need!",
         app_callback drv, instance_calls ++ callback_calls ++ scan_calls)
    | Some d =>
        if d =? VK_NULL_HANDLE
        then (Thrown "no Vulkan supporting GPU can do what you need!",
              app_selected d, instance_calls ++ callback_calls ++ scan_calls)
        else if negb (fst (vkCreateDevice drv d) =? VK_SUCCESS)
        then (Thrown "failed to create logical device!", app_device d,
              instance_calls ++ callback_calls ++ scan_calls ++ device_calls d)
        else
          (Returned tt,
           set_graphicsQueue
             (vkGetDeviceQueue drv (VDeleter.read (device (app_device d)))
                (graphicsFamily (findQueueFamilies drv d)))
             (app_device d),
           instance_calls ++ callback_calls ++ scan_calls ++ device_calls d ++
           [E_vkGetDeviceQueue (VDeleter.read (device (app_device d)))
              (graphicsFamily (findQueueFamilies drv d))])
    end.

Lemma app_callback_device :
VDeleter.object (device (app_callback drv)) = VK_NULL_HANDLE.
Proof. unfold app_callback. destruct (enableValidationLayers drv); reflexivity. Qed.

Lemma initVulkan_plan_eq : initVulkan drv (app0 drv) = initVulkan_plan.
Proof.
unfold initVulkan, initVulkan_plan.
unfold bind at 1. rewrite createInstance_eq.
destruct (layers_missing drv); [reflexivity|].
rewrite (release_of_empty m_instance) by reflexivity.
fold (app_instance drv).
destruct (negb (fst (vkCreateInstance drv) =? VK_SUCCESS)).
{ unfold instance_calls. reflexivity. }
unfold bind at 1. rewrite setupDebugCallback_eq.
rewrite (release_of_empty m_callback) by reflexivity.
assert (T1 : preamble drv ++ [E_glfwGetRequiredInstanceExtensions] ++ [] ++
             [E_vkCreateInstance] = instance_calls) by reflexivity.
rewrite T1. clear T1.
assert (Split :
  (if negb (enableValidationLayers drv)
   then (Returned tt, app_instance drv, [])
   else (if negb (proxy_result drv =? VK_SUCCESS)
         then Thrown "failed to set up debug callback!" else Returned tt,
         member_set m_callback (proxy_written drv) (app_instance drv),
         [] ++ [E_CreateDebugReportCallbackEXT
                  (VDeleter.read (instance (app_instance drv)))])) =
  (if enableValidationLayers drv && negb (proxy_result drv =? VK_SUCCESS)
   then Thrown "failed to set up debug callback!" else Returned tt,
   app_callback drv, callback_calls)).
{ unfold app_callback, callback_calls.
  destruct (enableValidationLayers drv); reflexivity. }
rewrite Split. clear Split.
destruct (enableValidationLayers drv && negb (proxy_result drv =? VK_SUCCESS)).
{ reflexivity. }
unfold bind at 1. rewrite pick_eq, app_callback_physicalDevice, Z.eqb_refl.
rewrite app_callback_instance.
destruct (Z.of_nat (length (vkEnumeratePhysicalDevices drv)) =? 0).
{ reflexivity. }
fold scan_calls.
destruct (find (isDeviceSuitable drv) (vkEnumeratePhysicalDevices drv)) as [d|];
  [|reflexivity].
fold (app_selected d).
destruct (d =? VK_NULL_HANDLE); [reflexivity|].
rewrite createLogicalDevice_eq.
cbn [physicalDevice app_selected set_physicalDevice].
rewrite (release_of_empty m_device) by apply app_callback_device.
fold (app_selected d). fold (app_device d).
destruct (negb (fst (vkCreateDevice drv d) =? VK_SUCCESS));
  unfold device_calls; cbn [List.app]; rewrite <- ?app_assoc; reflexivity.
Qed.

(** The calls of [initWindow]. *)
Definition window_calls : list Event :=
  [E_glfwInit; E_glfwWindowHint; E_glfwWindowHint; E_glfwCreateWindow].

(** The calls of [mainLoop]. *)
Definition loop_calls : list Event :=
  repeat E_glfwPollEvents (glfwWindowShouldClose drv) ++
  [E_glfwDestroyWindow (glfwCreateWindow drv); E_glfwTerminate].

Lemma plan_window :
window (snd (fst initVulkan_plan)) = glfwCreateWindow drv.
Proof.
unfold initVulkan_plan, app_device, app_selected, app_callback.
repeat match goal with
       | |- context [if ?c then _ else _] => destruct c
       | |- context [match ?c with Some _ => _ | None => _ end] => destruct c
       end; reflexivity.
Qed.

(** [run] and [main] on a freshly constructed object. *)
Lemma run_plan_eq :
run drv HelloTriangleApplication_ctor =
  (fst (fst initVulkan_plan), snd (fst initVulkan_plan),
   window_calls ++ snd initVulkan_plan ++
   match fst (fst initVulkan_plan) with
   | Returned _ => loop_calls
   | Thrown _ => []
   end).
Proof.
rewrite run_eq, initVulkan_plan_eq.
destruct (fst (fst initVulkan_plan)) eqn:O; [|reflexivity].
rewrite mainLoop_eq, plan_window. reflexivity.
Qed.

Lemma main_plan_eq :
main drv =
  match fst (fst initVulkan_plan) with
  | Returned _ =>
      (EXIT_SUCCESS,
       window_calls ++ snd initVulkan_plan ++ loop_calls ++
       teardown (snd (fst initVulkan_plan)))
  | Thrown what =>
      (EXIT_FAILURE,
       window_calls ++ snd initVulkan_plan ++ [E_cerr what] ++
       teardown (snd (fst initVulkan_plan)))
  end.
Proof.
rewrite main_eq, run_plan_eq.
destruct (fst (fst initVulkan_plan)); rewrite ?app_nil_r, <- ?app_assoc;
  reflexivity.
Qed.

End Plan.

(* ================================================================== *)
(** * Further properties of the whole execution *)
(* ================================================================== *)


(** Everything [run] needs to return: the first three steps succeed, the
    first suitable device exists, is a valid handle, and its logical
    device can be created. *)
Definition all_succeeds {hdr : Header} (drv : Driver) : Prop :=
  instance_ready drv /\
  exists d,
    find (isDeviceSuitable drv) (vkEnumeratePhysicalDevices drv) = Some d /\
    d <> VK_NULL_HANDLE /\
    fst (vkCreateDevice drv d) = VK_SUCCESS.

Section WholeRun.
Context {hdr : Header}.
Variable drv : Driver.

Ltac plan_cases :=
  unfold initVulkan_plan;
  destruct (layers_missing drv) eqn:Hlayers;
  [|destruct (Z.eqb_spec (fst (vkCreateInstance drv)) VK_SUCCESS)
      as [Hinst|Hinst]; cbn [negb];
    [destruct (enableValidationLayers drv) eqn:Henable; cbn [andb];
     [destruct (Z.eqb_spec (proxy_result drv) VK_SUCCESS)
        as [Hproxy|Hproxy]; cbn [negb]|];
     [destruct (Z.of_nat (length (vkEnumeratePhysicalDevices drv)) =? 0)
        eqn:Hcount;
      [|destruct (find (isDeviceSuitable drv)
                   (vkEnumeratePhysicalDevices drv)) as [d|] eqn:Hfind;
        [destruct (Z.eqb_spec d VK_NULL_HANDLE) as [Hnull|Hnull];
         [|destruct (Z.eqb_spec (fst (vkCreateDevice drv d)) VK_SUCCESS)
             as [Hdev|Hdev]; cbn [negb]]|]]
     | |
      destruct (Z.of_nat (length (vkEnumeratePhysicalDevices drv)) =? 0)
        eqn:Hcount;
      [|destruct (find (isDeviceSuitable drv)
                   (vkEnumeratePhysicalDevices drv)) as [d|] eqn:Hfind;
        [destruct (Z.eqb_spec d VK_NULL_HANDLE) as [Hnull|Hnull];
         [|destruct (Z.eqb_spec (fst (vkCreateDevice drv d)) VK_SUCCESS)
             as [Hdev|Hdev]; cbn [negb]]|]]]
    |]].


Lemma plan_returns_iff :
fst (fst (initVulkan_plan drv)) = Returned tt <-> all_succeeds drv.
Proof.
unfold all_succeeds, instance_ready.
  plan_cases; cbn [fst]; rewrite ?Hlayers, ?Henable;
    (split; [try discriminate; intros _|
             try reflexivity;
             intros ((Hl & Hi & Hp) & d' & Hf & Hn & Hd);
             try congruence]).
  all: try (repeat split; auto; try discriminate; eexists; eauto; fail).
  all: try (exfalso; apply Hproxy; auto; fail).
  all: try (destruct (vkEnumeratePhysicalDevices drv);
            [discriminate|apply Z.eqb_eq in Hcount; simpl in Hcount; lia]).
Qed.


Lemma in_preamble (e : Event) :
In e (preamble drv) ->
(NDEBUG drv = false /\
 (e = E_vkEnumerateInstanceExtensionProperties \/ (exists line, e = E_cout line)
  \/ e = E_vkEnumerateInstanceLayerProperties)).
Proof.
unfold preamble, enableValidationLayers. destruct (NDEBUG drv); cbn [negb].
- simpl. tauto.
- rewrite !in_app_iff. simpl. rewrite in_map_iff.
  intros [[[H|[H|[H|[]]]]|(x & H & _)]|[H|[H|[]]]]; subst; eauto 6.
Qed.

Lemma in_evaluated (e : Event) (l : list Z) :
In e (evaluated l) ->
exists dev, In dev l /\ e = E_vkGetPhysicalDeviceQueueFamilyProperties dev.
Proof.
induction l as [|y l IH]; simpl; [tauto|].
intros [H|[H|H]]; eauto. destruct (IH H) as (dev & Hin & E). eauto.
Qed.

Lemma in_loop_calls (e : Event) :
In e (loop_calls drv) ->
e = E_glfwPollEvents \/ e = E_glfwDestroyWindow (glfwCreateWindow drv) \/
e = E_glfwTerminate.
Proof.
unfold loop_calls. rewrite in_app_iff. simpl.
intros [H|[H|[H|[]]]]; auto. apply repeat_spec in H. auto.
Qed.

(** What the wrappers hold when [initVulkan] is left. *)
Lemma final_instance :
instance (snd (fst (initVulkan_plan drv))) =
  if layers_missing drv then VDeleter.construct VK_NULL_HANDLE
  else written (snd (vkCreateInstance drv)).
Proof.
plan_cases; unfold app_device, app_selected, app_callback;
  rewrite ?Henable; reflexivity.
Qed.

(** Whether [setupDebugCallback] got to call the proxy. *)
Definition callback_reached : bool :=
  negb (layers_missing drv) && (fst (vkCreateInstance drv) =? VK_SUCCESS) &&
  enableValidationLayers drv.

Lemma final_callback :
callback (snd (fst (initVulkan_plan drv))) =
  if callback_reached then proxy_written drv
  else VDeleter.construct VK_NULL_HANDLE.
Proof.
unfold callback_reached.
plan_cases; unfold app_device, app_selected, app_callback;
  rewrite ?Henable; cbn [negb andb];
  try (apply Z.eqb_eq in Hinst); try (apply Z.eqb_neq in Hinst);
  rewrite ?Hinst; reflexivity.
Qed.

(** The device [createLogicalDevice] got to call [vkCreateDevice] for, if
    it did. *)
Definition device_reached : option Z :=
  if negb (layers_missing drv) && (fst (vkCreateInstance drv) =? VK_SUCCESS) &&
     negb (enableValidationLayers drv && negb (proxy_result drv =? VK_SUCCESS))
     && negb (Z.of_nat (length (vkEnumeratePhysicalDevices drv)) =? 0)
  then match find (isDeviceSuitable drv) (vkEnumeratePhysicalDevices drv) with
       | Some d => if d =? VK_NULL_HANDLE then None else Some d
       | None => None
       end
  else None.

Lemma final_device :
device (snd (fst (initVulkan_plan drv))) =
  match device_reached with
  | Some d => written (snd (vkCreateDevice drv d))
  | None => VDeleter.construct VK_NULL_HANDLE
  end.
Proof.
unfold device_reached.
plan_cases; unfold app_device, app_selected, app_callback;
  rewrite ?Henable, ?Hcount, ?Hfind; cbn [negb andb];
  try (apply Z.eqb_eq in Hinst); try (apply Z.eqb_neq in Hinst);
  try (apply Z.eqb_eq in Hproxy); try (apply Z.eqb_neq in Hproxy);
  try (apply Z.eqb_eq in Hnull); try (apply Z.eqb_neq in Hnull);
  rewrite ?Hinst, ?Hproxy, ?Hnull; cbn [negb andb]; reflexivity.
Qed.

(** The trace of [main]: calls that release nothing, then the releases
    of the destructor. *)
Lemma main_shape :
exists calls,
  snd (main drv) = calls ++ teardown (snd (fst (initVulkan_plan drv))) /\
  forall e, In e calls -> is_release e = false.
Proof.
pose proof (run_quiet drv) as Q. rewrite run_plan_eq in Q.
destruct Q as [Q _]. rewrite forallb_forall in Q.
assert (Q' : forall e,
  In e (window_calls ++ snd (initVulkan_plan drv) ++
        match fst (fst (initVulkan_plan drv)) with
        | Returned _ => loop_calls drv
        | Thrown _ => []
        end) -> is_release e = false).
{ intros e H. specialize (Q e H). destruct (is_release e); auto. }
rewrite main_plan_eq.
destruct (fst (fst (initVulkan_plan drv))) as [[]|w].
- exists (window_calls ++ snd (initVulkan_plan drv) ++ loop_calls drv).
  split; [cbn [snd]; now rewrite <- ?app_assoc|exact Q'].
- exists (window_calls ++ snd (initVulkan_plan drv) ++ [E_cerr w]).
  split; [cbn [snd]; now rewrite <- ?app_assoc|].
  intros e H. rewrite !in_app_iff in H. simpl in H.
  destruct H as [H|[H|[<-|[]]]]; [apply Q'|apply Q'|reflexivity];
    rewrite !in_app_iff; auto.
Qed.

Lemma split_after_calls (calls rel pre post : list Event) (e : Event) :
(forall x, In x calls -> is_release x = false) ->
is_release e = true ->
calls ++ rel = pre ++ e :: post ->
exists l, pre = calls ++ l /\ rel = l ++ e :: post.
Proof.
revert pre. induction calls as [|c calls IH]; intros pre Hq He E.
- exists pre. auto.
- destruct pre as [|p pre]; simpl in E; inversion E; subst.
  + rewrite (Hq e) in He by (simpl; auto). discriminate.
  + destruct (IH pre) as (l & -> & ->); auto.
    * intros x Hx. apply Hq. simpl. auto.
    * exists l. auto.
Qed.

(** X9.  Nothing is called after a release: once [main] has released a
    handle, every later action of the process is again a release, so no
    handle (and no context a handle depends on) is used after being
    destroyed. *)
Theorem no_call_after_release (pre : list Event) (e : Event)
  (post : list Event) :
snd (main drv) = pre ++ e :: post ->
is_release e = true ->
forall e', In e' post -> is_release e' = true.
Proof.
intros E He e' Hin. destruct main_shape as (calls & Em & Hq).
rewrite Em in E.
destruct (@split_after_calls calls _ pre post e Hq He E) as (l & _ & Et).
eapply teardown_releases. rewrite Et. apply in_or_app. simpl. eauto.
Qed.

Lemma in_main_release (e : Event) :
is_release e = true ->
(In e (snd (main drv)) <-> In e (teardown (snd (fst (initVulkan_plan drv))))).
Proof.
intros He. destruct main_shape as (calls & Em & Hq). rewrite Em, in_app_iff.
split; [|auto]. intros [H|H]; auto.
rewrite (Hq e H) in He. discriminate.
Qed.

Lemma in_teardown (app : HelloTriangleApplication) (e : Event) :
In e (teardown app) <->
(VDeleter.object (device app) <> VK_NULL_HANDLE /\
 e = E_vkDestroyDevice (VDeleter.object (device app))) \/
(VDeleter.object (callback app) <> VK_NULL_HANDLE /\
 e = E_DestroyDebugReportCallbackEXT (VDeleter.object (instance app))
       (VDeleter.object (callback app))) \/
(VDeleter.object (instance app) <> VK_NULL_HANDLE /\
 e = E_vkDestroyInstance (VDeleter.object (instance app))).
Proof.
unfold teardown, release_of. cbn [member_get deleter VDeleter.read].
rewrite !in_app_iff.
destruct (Z.eq_dec (VDeleter.object (device app)) VK_NULL_HANDLE);
  destruct (Z.eq_dec (VDeleter.object (callback app)) VK_NULL_HANDLE);
  destruct (Z.eq_dec (VDeleter.object (instance app)) VK_NULL_HANDLE);
  simpl; intuition (subst; auto; try congruence).
Qed.

Lemma written_object (out : option Z) (v : Z) :
v <> VK_NULL_HANDLE ->
(VDeleter.object (written out) = v <-> out = Some v).
Proof.
intros Hv. destruct out as [w|]; cbn; split; intros H; congruence.
Qed.

Lemma callback_reached_iff :
callback_reached = true <->
layers_missing drv = false /\ fst (vkCreateInstance drv) = VK_SUCCESS /\
enableValidationLayers drv = true.
Proof.
unfold callback_reached.
rewrite !andb_true_iff, negb_true_iff, Z.eqb_eq. tauto.
Qed.

Lemma device_reached_iff (d : Z) :
device_reached = Some d <->
instance_ready drv /\
find (isDeviceSuitable drv) (vkEnumeratePhysicalDevices drv) = Some d /\
d <> VK_NULL_HANDLE.
Proof.
unfold device_reached, instance_ready.
destruct (layers_missing drv); cbn [negb andb].
{ split; [discriminate|]. intros ((H & _) & _). discriminate. }
destruct (Z.eqb_spec (fst (vkCreateInstance drv)) VK_SUCCESS) as [Hi|Hi];
  cbn [negb andb].
2:{ split; [discriminate|]. intros ((_ & H & _) & _). contradiction. }
destruct (enableValidationLayers drv); cbn [negb andb].
- destruct (Z.eqb_spec (proxy_result drv) VK_SUCCESS) as [Hp|Hp];
    cbn [negb andb].
  2:{ split; [discriminate|]. intros ((_ & _ & H) & _). elim Hp. auto. }
  destruct (Z.of_nat (length (vkEnumeratePhysicalDevices drv)) =? 0) eqn:L;
    cbn [negb].
  { split; [discriminate|]. intros (_ & H & _).
    destruct (vkEnumeratePhysicalDevices drv); [discriminate|].
    apply Z.eqb_eq in L. simpl in L. lia. }
  destruct (find (isDeviceSuitable drv) (vkEnumeratePhysicalDevices drv))
    as [d'|].
  + destruct (Z.eqb_spec d' VK_NULL_HANDLE).
    * split; [discriminate|]. intros (_ & H & Hn). congruence.
    * split; intros H.
      -- inversion H; subst. repeat split; auto.
      -- destruct H as (_ & H & _). exact H.
  + split; [discriminate|]. intros (_ & H & _). discriminate.
- destruct (Z.of_nat (length (vkEnumeratePhysicalDevices drv)) =? 0) eqn:L;
    cbn [negb].
  { split; [discriminate|]. intros (_ & H & _).
    destruct (vkEnumeratePhysicalDevices drv); [discriminate|].
    apply Z.eqb_eq in L. simpl in L. lia. }
  destruct (find (isDeviceSuitable drv) (vkEnumeratePhysicalDevices drv))
    as [d'|].
  + destruct (Z.eqb_spec d' VK_NULL_HANDLE).
    * split; [discriminate|]. intros (_ & H & Hn). congruence.
    * split; intros H.
      -- inversion H; subst. repeat split; auto. discriminate.
      -- destruct H as (_ & H & _). exact H.
  + split; [discriminate|]. intros (_ & H & _). discriminate.
Qed.

Definition is_release_of (m : Member) (e : Event) : bool :=
  match m, e with
  | m_instance, E_vkDestroyInstance _ => true
  | m_callback, E_DestroyDebugReportCallbackEXT _ _ => true
  | m_device, E_vkDestroyDevice _ => true
  | _, _ => false
  end.

(** X10.  The releases of the process match its creations.  The instance
    is destroyed exactly when [vkCreateInstance] was reached and wrote a
    non-null handle, and with that handle; the logical device, exactly
    when [vkCreateDevice] was reached and wrote one; the debug callback,
    exactly when the proxy was reached and the extension wrote one, and
    then with the instance handle as context.  This holds on the failing
    executions too.  No wrapper's release function is called twice. *)
Theorem releases_match_creations :
(forall j,
   In (E_vkDestroyInstance j) (snd (main drv)) <->
   layers_missing drv = false /\ snd (vkCreateInstance drv) = Some j /\
   j <> VK_NULL_HANDLE) /\
(forall x,
   In (E_vkDestroyDevice x) (snd (main drv)) <->
   exists d,
     (instance_ready drv /\
      find (isDeviceSuitable drv) (vkEnumeratePhysicalDevices drv) = Some d /\
      d <> VK_NULL_HANDLE) /\
     snd (vkCreateDevice drv d) = Some x /\ x <> VK_NULL_HANDLE) /\
(forall i c,
   In (E_DestroyDebugReportCallbackEXT i c) (snd (main drv)) <->
   (layers_missing drv = false /\ fst (vkCreateInstance drv) = VK_SUCCESS /\
    enableValidationLayers drv = true) /\
   i = instance_handle drv /\
   (exists result, vkGetInstanceProcAddr_create drv = Some (result, Some c)) /\
   c <> VK_NULL_HANDLE) /\
(forall m,
   (length (filter (is_release_of m) (snd (main drv))) <= 1)%nat).
Proof.
split; [|split; [|split]].
- intros j. rewrite in_main_release by reflexivity.
  rewrite in_teardown, final_instance. split.
  + intros [[_ H]|[[_ H]|[Hn H]]]; try discriminate.
    inversion H; subst j. clear H.
    destruct (layers_missing drv); [cbn in Hn; congruence|].
    repeat split; auto. now apply written_object.
  + intros (Hl & Ho & Hn). rewrite Hl, Ho. cbn. auto.
- intros x. rewrite in_main_release by reflexivity.
  rewrite in_teardown, final_device. split.
  + intros [[Hn H]|[[_ H]|[_ H]]]; try discriminate.
    inversion H; subst x. clear H.
    destruct device_reached as [d|] eqn:R; [|cbn in Hn; congruence].
    exists d. split; [now apply device_reached_iff|].
    split; auto. now apply written_object.
  + intros (d & Hr & Ho & Hn). apply device_reached_iff in Hr.
    rewrite Hr, Ho. cbn. auto.
- intros i c. rewrite in_main_release by reflexivity.
  rewrite in_teardown, final_callback, final_instance.
  assert (Hl : callback_reached = true -> layers_missing drv = false).
  { unfold callback_reached. destruct (layers_missing drv); auto. }
  unfold instance_handle. split.
  + intros [[_ H]|[[Hn H]|[_ H]]]; try discriminate.
    inversion H; subst i c. clear H.
    destruct callback_reached eqn:R; [|cbn in Hn; congruence].
    destruct (proj1 callback_reached_iff R) as (Hlm & Hi' & He').
    rewrite Hlm. repeat split; auto.
    unfold proxy_written in *.
    destruct (vkGetInstanceProcAddr_create drv) as [[r [v|]]|];
      cbn in *; try congruence. eauto.
  + intros (Hr & Hi & (r & Hp) & Hn). apply callback_reached_iff in Hr.
    rewrite Hr, (Hl Hr).
    unfold proxy_written. rewrite Hp. cbn. subst i. auto.
- intros m. destruct main_shape as (calls & Em & Hq). rewrite Em, filter_app.
  assert (F : filter (is_release_of m) calls = []).
  { clear Em. induction calls as [|c calls IH]; [reflexivity|].
    simpl. assert (R : is_release c = false) by (apply Hq; simpl; auto).
    replace (is_release_of m c) with false
      by (destruct m, c; simpl in *; congruence).
    apply IH. intros x Hx. apply Hq. simpl. auto. }
  rewrite F. unfold teardown, release_of. cbn [member_get deleter].
  repeat match goal with
         | |- context [Z.eq_dec ?a ?b] => destruct (Z.eq_dec a b)
         end; destruct m; cbn; lia.
Qed.

Lemma releases_reach (i c : Z) :
In (E_DestroyDebugReportCallbackEXT i c) (snd (main drv)) ->
i = instance_handle drv /\ fst (vkCreateInstance drv) = VK_SUCCESS.
Proof.
rewrite in_main_release by reflexivity.
rewrite in_teardown, final_callback, final_instance.
intros [[_ H]|[[Hn H]|[_ H]]]; try discriminate.
inversion H; subst i c. clear H.
destruct callback_reached eqn:R; [|cbn in Hn; congruence].
destruct (proj1 callback_reached_iff R) as (Hlm & Hi & _).
rewrite Hlm. auto.
Qed.

Ltac trace_cases :=
  repeat match goal with
  | H : In _ (_ ++ _) |- _ => apply in_app_or in H; destruct H as [H|H]
  | H : In _ (preamble _) |- _ =>
      apply in_preamble in H; destruct H as (? & [H|[(? & H)|H]])
  | H : In _ (evaluated _) |- _ =>
      apply in_evaluated in H; destruct H as (? & ? & H)
  | H : In _ (loop_calls _) |- _ =>
      apply in_loop_calls in H; destruct H as [H|[H|H]]
  | H : In _ (_ :: _) |- _ => destruct H as [H|H]
  | H : In _ [] |- _ => destruct H
  end.

Ltac main_cases H :=
  rewrite main_plan_eq in H; revert H; plan_cases; cbn [fst snd]; intros H;
  unfold window_calls, instance_calls, callback_calls, scan_calls,
    device_calls in H;
  try match goal with
      | En : enableValidationLayers _ = _ |- _ => rewrite En in H
      end.

(** The actions that belong to validation and diagnostics. *)
Definition debug_only (e : Event) : bool :=
  match e with
  | E_cout _ | E_vkEnumerateInstanceExtensionProperties
  | E_vkEnumerateInstanceLayerProperties
  | E_CreateDebugReportCallbackEXT _
  | E_DestroyDebugReportCallbackEXT _ _ => true
  | _ => false
  end.

(** X11.  A release build (compiled with [NDEBUG]) does nothing for
    validation: it lists no extensions, enumerates no layers, writes
    nothing to [std::cout], and neither creates nor destroys a debug
    callback, whatever the driver answers. *)
Theorem release_build_skips_validation :
NDEBUG drv = true ->
forall e, In e (snd (main drv)) -> debug_only e = false.
Proof.
intros HN e H.
assert (En : enableValidationLayers drv = false)
  by (unfold enableValidationLayers; now rewrite HN).
assert (Td : forall app, callback app = VDeleter.construct VK_NULL_HANDLE ->
   In e (teardown app) -> debug_only e = false).
{ intros app Hc Hin. apply in_teardown in Hin. rewrite Hc in Hin. cbn in Hin.
  destruct Hin as [[_ ->]|[[Hn _]|[_ ->]]]; try reflexivity. congruence. }
assert (Fc : callback (snd (fst (initVulkan_plan drv)))
             = VDeleter.construct VK_NULL_HANDLE).
{ rewrite final_callback. unfold callback_reached. rewrite En.
  now rewrite andb_false_r. }
rewrite main_plan_eq in H.
destruct (fst (fst (initVulkan_plan drv))) as [[]|w]; cbn [snd] in H;
  rewrite !in_app_iff in H;
  destruct H as [H|[H|[H|H]]];
  try (eapply Td; eauto; fail);
  try (unfold window_calls in H; trace_cases; subst; reflexivity);
  try (trace_cases; subst; reflexivity).
all: revert H; plan_cases; cbn [snd]; intros H; try congruence;
  unfold instance_calls, callback_calls, scan_calls, device_calls in H;
  try match goal with
      | En' : enableValidationLayers _ = _ |- _ => rewrite En' in H
      end;
  trace_cases; subst; try reflexivity; congruence.
Qed.

(** X12.  [vkCreateDevice] is only ever called for the first suitable
    device of the enumeration, a non-null handle; and the queue family
    index handed to [vkGetDeviceQueue] is never the "not found" sentinel:
    it is the index [findQueueFamilies] computes for that device, which
    is at least 0, after [vkCreateDevice] succeeded for it. *)
Theorem logical_device_only_for_suitable_device :
(forall pd,
   In (E_vkCreateDevice pd) (snd (main drv)) ->
   find (isDeviceSuitable drv) (vkEnumeratePhysicalDevices drv) = Some pd /\
   In pd (vkEnumeratePhysicalDevices drv) /\
   isDeviceSuitable drv pd = true /\ pd <> VK_NULL_HANDLE) /\
(forall dv family,
   In (E_vkGetDeviceQueue dv family) (snd (main drv)) ->
   family >= 0 /\
   exists pd,
     find (isDeviceSuitable drv) (vkEnumeratePhysicalDevices drv) = Some pd /\
     family = graphicsFamily (findQueueFamilies drv pd) /\
     fst (vkCreateDevice drv pd) = VK_SUCCESS /\
     dv = VDeleter.object (written (snd (vkCreateDevice drv pd)))).
Proof.
split.
- intros pd H. main_cases H; trace_cases; try discriminate;
    try (apply teardown_releases in H; discriminate);
    inversion H; subst; pose proof (find_some _ _ Hfind); tauto.
- intros dv family H. main_cases H; trace_cases; try discriminate;
    try (apply teardown_releases in H; discriminate);
    inversion H; subst;
    (split;
     [pose proof (find_some _ _ Hfind) as (_ & S);
      unfold isDeviceSuitable, isComplete in S; apply Z.geb_le in S; lia
     |exists d; repeat split; auto]).
Qed.

(** X13.  Every call that is handed the instance is made after
    [vkCreateInstance] succeeded and receives the handle it wrote: the
    creation of the debug callback, both enumerations of the physical
    devices, and the destruction of the debug callback. *)
Theorem instance_users_get_created_instance :
(forall i, In (E_CreateDebugReportCallbackEXT i) (snd (main drv)) ->
   i = instance_handle drv /\ fst (vkCreateInstance drv) = VK_SUCCESS) /\
(forall i, In (E_vkEnumeratePhysicalDevices i) (snd (main drv)) ->
   i = instance_handle drv /\ fst (vkCreateInstance drv) = VK_SUCCESS) /\
(forall i c, In (E_DestroyDebugReportCallbackEXT i c) (snd (main drv)) ->
   i = instance_handle drv /\ fst (vkCreateInstance drv) = VK_SUCCESS).
Proof.
split; [|split].
- intros i H. main_cases H; trace_cases; try discriminate;
    try (apply teardown_releases in H; discriminate);
    inversion H; subst; auto.
- intros i H. main_cases H; trace_cases; try discriminate;
    try (apply teardown_releases in H; discriminate);
    inversion H; subst; auto.
- intros i c H. apply releases_reach in H. tauto.
Qed.

(** X14.  GLFW is torn down only on the successful path: the window is
    destroyed and [glfwTerminate] is called exactly when every step of
    [initVulkan] succeeded, and then the window destroyed is the one
    [glfwCreateWindow] returned; on every failing execution GLFW has been
    initialised and the window created, and neither is cleaned up. *)
Theorem glfw_torn_down_only_on_success :
(In E_glfwTerminate (snd (main drv)) <-> all_succeeds drv) /\
(forall w, In (E_glfwDestroyWindow w) (snd (main drv)) <->
   all_succeeds drv /\ w = glfwCreateWindow drv) /\
In E_glfwInit (snd (main drv)) /\ In E_glfwCreateWindow (snd (main drv)).
Proof.
pose proof plan_returns_iff as Iff.
assert (Ok : fst (fst (initVulkan_plan drv)) = Returned tt ->
   forall e, In e (loop_calls drv) -> In e (snd (main drv))).
{ intros O e He. rewrite main_plan_eq, O. cbn [snd].
  rewrite !in_app_iff. auto. }
assert (Init : forall e, In e (window_calls ++ snd (initVulkan_plan drv)) ->
   is_mainLoop e = false).
{ intros e H.
  pose proof (initVulkan_quiet drv (ctor_handles_empty (glfwCreateWindow drv)))
    as Q.
  fold (app0 drv) in Q. rewrite initVulkan_plan_eq, forallb_forall in Q.
  apply in_app_or in H. destruct H as [H|H].
  - unfold window_calls in H. trace_cases; subst; reflexivity.
  - specialize (Q e H). unfold init_event in Q.
    destruct (is_mainLoop e); auto. rewrite andb_false_r in Q. discriminate. }
assert (Ko : forall e, is_mainLoop e = true -> In e (snd (main drv)) ->
   fst (fst (initVulkan_plan drv)) = Returned tt /\ In e (loop_calls drv)).
{ intros e Hm H. rewrite main_plan_eq in H.
  destruct (fst (fst (initVulkan_plan drv))) as [[]|w] eqn:O;
    cbn [snd] in H; rewrite app_assoc in H; apply in_app_or in H;
    destruct H as [H|H]; try (rewrite (Init e H) in Hm; discriminate).
  - split; [reflexivity|]. apply in_app_or in H. destruct H as [H|H]; auto.
    apply teardown_releases in H. destruct e; discriminate.
  - exfalso. apply in_app_or in H. destruct H as [[<-|[]]|H];
      [discriminate|].
    apply teardown_releases in H. destruct e; discriminate. }
split; [|split; [|split]].
- split.
  + intros H. apply Iff. apply (Ko E_glfwTerminate eq_refl H).
  + intros H. apply Iff in H. apply (Ok H). unfold loop_calls.
    apply in_or_app. simpl. auto.
- intros w. split.
  + intros H. destruct (Ko (E_glfwDestroyWindow w) eq_refl H) as [O Hl].
    split; [now apply Iff|].
    apply in_loop_calls in Hl. destruct Hl as [Hl|[Hl|Hl]]; congruence.
  + intros [H ->]. apply Iff in H. apply (Ok H). unfold loop_calls.
    apply in_or_app. simpl. auto.
- rewrite main_plan_eq.
  destruct (fst (fst (initVulkan_plan drv))); cbn [snd]; apply in_or_app;
    left; simpl; auto.
- rewrite main_plan_eq.
  destruct (fst (fst (initVulkan_plan drv))); cbn [snd]; apply in_or_app;
    left; simpl; auto.
Qed.

(** X15.  The instance is only created with layers that were found:
    whenever [vkCreateInstance] is called in a debug build, every layer of
    [validationLayers], which the create info then enables, is among the
    enumerated layers; and [vkCreateInstance] is called at most once. *)
Theorem instance_created_only_with_available_layers :
(In E_vkCreateInstance (snd (main drv)) ->
 enableValidationLayers drv = true ->
 forall name, In name validationLayers ->
   present name (vkEnumerateInstanceLayerProperties drv)) /\
(In E_vkCreateInstance (snd (main drv)) <-> layers_missing drv = false).
Proof.
assert (R : In E_vkCreateInstance (snd (main drv)) <-> layers_missing drv = false).
{ split.
  - intros H. main_cases H; trace_cases; try discriminate; auto;
      apply teardown_releases in H; discriminate.
  - intros Hl. rewrite main_plan_eq.
    assert (I : In E_vkCreateInstance (snd (initVulkan_plan drv))).
    { revert Hl. plan_cases; cbn [snd]; intros Hl; try discriminate;
        unfold instance_calls; rewrite ?in_app_iff; simpl; auto 10. }
    destruct (fst (fst (initVulkan_plan drv))); cbn [snd];
      rewrite !in_app_iff; auto. }
split; [|exact R].
intros H En. apply R in H. unfold layers_missing in H. rewrite En in H.
cbn in H. apply negb_false_iff in H. now apply check_iff.
Qed.

End WholeRun.

(* ================================================================== *)
(** * The earlier checkpoint (src/Vulkanize/main.cpp) *)
(* ================================================================== *)

(** The earlier checkpoint has the members [window], [instance] and
    [callback] only, and its [initVulkan] stops after the debug callback.
    Its functions [initWindow], [createInstance], [setupDebugCallback] and
    [mainLoop] are those of the later checkpoint; the members it does not
    have stay at their initial values in the state. *)
Module Checkpoint1.
Section Program.
Context {hdr : Header}.
Variable drv : Driver.

(** The scoped handles of the class, in declaration order. *)
Definition members : list Member := [m_instance; m_callback].

(** [void initVulkan()] *)
Definition initVulkan : M unit :=
  createInstance drv ;;;
  setupDebugCallback drv.

(** [void run()] *)
Definition run : M unit :=
  initWindow drv ;;;
  initVulkan ;;;
  mainLoop drv.

(** The implicit destructor: members in reverse declaration order. *)
Definition HelloTriangleApplication_dtor : M unit :=
  destroy_members (rev members).

(** [int main()] *)
Definition main : Z * list Event :=
  let app := HelloTriangleApplication_ctor in
  match run app with
  | (Thrown what, app1, tr1) =>
      let '(_, _, tr2) := HelloTriangleApplication_dtor app1 in
      (EXIT_FAILURE, tr1 ++ [E_cerr what] ++ tr2)
  | (Returned _, app1, tr1) =>
      let '(_, _, tr2) := HelloTriangleApplication_dtor app1 in
      (EXIT_SUCCESS, tr1 ++ tr2)
  end.

Lemma setup_dtor_eq (app : HelloTriangleApplication) :
VDeleter.object (device app) = VK_NULL_HANDLE ->
snd (HelloTriangleApplication_dtor app) = teardown app.
Proof.
intros Hd. unfold HelloTriangleApplication_dtor, members, teardown.
cbn [rev List.app destroy_members]. unfold bind.
rewrite !member_destroy_eq. unfold ret. cbn [snd].
rewrite (release_of_empty m_device) by exact Hd.
unfold release_of. simpl. now rewrite app_nil_r.
Qed.

(** [initVulkan] of this checkpoint on a freshly constructed object. *)
Definition initVulkan_plan
  : outcome unit * HelloTriangleApplication * list Event :=
  if layers_missing drv
  then (Thrown "validation layers requested, but not available!",
        app0 drv, preamble drv)
  else if negb (fst (vkCreateInstance drv) =? VK_SUCCESS)
  then (Thrown "failed to create instance!", app_instance drv,
        instance_calls drv)
  else ((if enableValidationLayers drv &&
            negb (proxy_result drv =? VK_SUCCESS)
         then Thrown "failed to set up debug callback!" else Returned tt),
        app_callback drv, instance_calls drv ++ callback_calls drv).

Lemma setup_plan_eq : initVulkan (app0 drv) = initVulkan_plan.
Proof.
unfold initVulkan, initVulkan_plan.
unfold bind. rewrite createInstance_eq.
destruct (layers_missing drv); [reflexivity|].
rewrite (release_of_empty m_instance) by reflexivity.
fold (app_instance drv).
destruct (negb (fst (vkCreateInstance drv) =? VK_SUCCESS)).
{ unfold instance_calls. reflexivity. }
rewrite setupDebugCallback_eq.
rewrite (release_of_empty m_callback) by reflexivity.
unfold app_callback, callback_calls, instance_calls.
destruct (enableValidationLayers drv); cbn [negb andb].
- destruct (negb (proxy_result drv =? VK_SUCCESS)); reflexivity.
- cbn. now rewrite app_nil_r.
Qed.

Lemma setup_plan_state :
window (snd (fst initVulkan_plan)) = glfwCreateWindow drv /\
VDeleter.object (device (snd (fst initVulkan_plan))) = VK_NULL_HANDLE.
Proof.
unfold initVulkan_plan, app_callback.
repeat match goal with
       | |- context [if ?c then _ else _] => destruct c
       end; split; reflexivity.
Qed.

Lemma setup_main_eq :
main =
  match fst (fst initVulkan_plan) with
  | Returned _ =>
      (EXIT_SUCCESS,
       window_calls ++ snd initVulkan_plan ++ loop_calls drv ++
       teardown (snd (fst initVulkan_plan)))
  | Thrown what =>
      (EXIT_FAILURE,
       window_calls ++ snd initVulkan_plan ++ [E_cerr what] ++
       teardown (snd (fst initVulkan_plan)))
  end.
Proof.
unfold main, run. unfold bind at 1. rewrite initWindow_eq.
fold (app0 drv). unfold bind. rewrite setup_plan_eq.
destruct setup_plan_state as [Hw Hd].
pose proof (setup_dtor_eq _ Hd) as D.
destruct initVulkan_plan as [[[[]|w] app1] tr1]; cbn [fst snd] in *.
- rewrite mainLoop_eq, Hw.
  destruct (HelloTriangleApplication_dtor app1) as [[r a] t].
  cbn [snd] in D. subst t. unfold window_calls, loop_calls.
  rewrite <- !app_assoc. reflexivity.
- destruct (HelloTriangleApplication_dtor app1) as [[r a] t].
  cbn [snd] in D. subst t. unfold window_calls.
  rewrite <- !app_assoc. reflexivity.
Qed.

End Program.
End Checkpoint1.

(** X16.  The two checkpoints agree up to the debug callback.  When one of
    the first three steps fails, the later checkpoint's [main] does
    exactly what the earlier one's does: same exit status, same calls,
    same message, same releases.  When they all succeed, the earlier
    [main] exits with [EXIT_SUCCESS] after its main loop and releases the
    callback and then the instance, and the later [main] makes the same
    calls up to the debug callback before it turns to the devices. *)
Theorem checkpoints_agree_until_device_selection {hdr : Header}
  (drv : Driver) :
(~ instance_ready drv -> Checkpoint1.main drv = main drv) /\
(instance_ready drv ->
 Checkpoint1.main drv =
   (EXIT_SUCCESS,
    window_calls ++ instance_calls drv ++ callback_calls drv ++
    loop_calls drv ++ teardown (app_callback drv)) /\
 exists rest,
   snd (main drv) =
     window_calls ++ instance_calls drv ++ callback_calls drv ++ rest).
Proof.
rewrite Checkpoint1.setup_main_eq, main_plan_eq.
unfold Checkpoint1.initVulkan_plan, initVulkan_plan, instance_ready.
destruct (layers_missing drv).
{ split; [reflexivity|]. intros (H & _). discriminate. }
destruct (Z.eqb_spec (fst (vkCreateInstance drv)) VK_SUCCESS) as [Hi|Hi];
  cbn [negb].
2:{ split; [reflexivity|]. intros (_ & H & _). contradiction. }
destruct (enableValidationLayers drv) eqn:En; cbn [andb].
- destruct (Z.eqb_spec (proxy_result drv) VK_SUCCESS) as [Hp|Hp]; cbn [negb].
  + split; [intros H; elim H; auto|]. intros _. cbn [fst snd].
    split; [now rewrite <- !app_assoc|].
    repeat match goal with
           | |- context [if ?c then _ else _] => destruct c
           | |- context [match ?c with Some _ => _ | None => _ end] =>
               destruct c
           end; cbn [fst snd]; rewrite <- ?app_assoc; eexists; reflexivity.
  + split; [reflexivity|]. intros (_ & _ & H). elim Hp. auto.
- split; [intros H; elim H; repeat split; auto; discriminate|].
  intros _. cbn [fst snd]. split; [now rewrite <- !app_assoc|].
  repeat match goal with
         | |- context [if ?c then _ else _] => destruct c
         | |- context [match ?c with Some _ => _ | None => _ end] =>
             destruct c
         end; cbn [fst snd]; rewrite <- ?app_assoc; eexists; reflexivity.
Qed.

(* ================================================================== *)
(** * More on the validation layers and the extensions *)
(* ================================================================== *)

(** X17.  [checkValidationLayerSupport] composes: a list of required
    names is supported exactly when each part of it is; making more
    layers available never turns a supported list into an unsupported
    one, and requiring fewer names never does either. *)
Theorem checkValidationLayerSupport_composes
  (layers1 layers2 : list string)
  (availableLayers availableLayers' : list VkLayerProperties) :
checkValidationLayerSupport (layers1 ++ layers2) availableLayers =
  checkValidationLayerSupport layers1 availableLayers &&
  checkValidationLayerSupport layers2 availableLayers /\
((forall lp, In lp availableLayers -> In lp availableLayers') ->
 checkValidationLayerSupport layers1 availableLayers = true ->
 checkValidationLayerSupport layers1 availableLayers' = true) /\
((forall name, In name layers2 -> In name layers1) ->
 checkValidationLayerSupport layers1 availableLayers = true ->
 checkValidationLayerSupport layers2 availableLayers = true).
Proof.
split; [|split].
- induction layers1 as [|n l IH]; [reflexivity|].
  simpl. destruct (layerFound n availableLayers); simpl; auto.
- intros Sub H. apply check_iff. intros n Hin.
  destruct (proj1 (check_iff _ _) H n Hin) as (lp & Hl & E).
  exists lp. auto.
- intros Sub H. apply check_iff. intros n Hin.
  apply (proj1 (check_iff _ _) H). auto.
Qed.

(** [VK_EXT_DEBUG_REPORT_EXTENSION_NAME]; the source notes that the macro
    "is equal to the literal string" below. *)
Definition VK_EXT_DEBUG_REPORT_EXTENSION_NAME : string := "VK_EXT_debug_report".

(** The [for] loop of [getRequiredExtensions], with [remaining]
    iterations to go from index [i]. *)
Fixpoint getRequiredExtensions_loop (remaining i : nat)
  (glfwExtensions extensions : list string) : list string :=
  match remaining with
  | O => extensions
  | S remaining' =>
      getRequiredExtensions_loop remaining' (S i) glfwExtensions
        (extensions ++ [nth i glfwExtensions EmptyString])
  end.

(** [std::vector<const char*> getRequiredExtensions()]: the array and the
    count are what [glfwGetRequiredInstanceExtensions] returns. *)
Definition getRequiredExtensions (drv : Driver)
  (glfwExtensions : list string) (glfwExtensionCount : nat) : list string :=
  let extensions :=
    getRequiredExtensions_loop glfwExtensionCount 0 glfwExtensions [] in
  if enableValidationLayers drv
  then extensions ++ [VK_EXT_DEBUG_REPORT_EXTENSION_NAME]
  else extensions.

Lemma getRequiredExtensions_loop_eq (remaining : nat) :
forall i glfwExtensions extensions,
(i + remaining <= length glfwExtensions)%nat ->
getRequiredExtensions_loop remaining i glfwExtensions extensions =
  extensions ++ firstn remaining (skipn i glfwExtensions).
Proof.
induction remaining as [|r IH]; intros i g exts Hlen.
- simpl. now rewrite app_nil_r.
- cbn [getRequiredExtensions_loop]. rewrite IH by lia.
  rewrite <- app_assoc. f_equal.
  assert (Hi : (i < length g)%nat) by lia.
  clear IH Hlen. revert i Hi. induction g as [|x g IHg]; intros i Hi.
  + simpl in Hi. lia.
  + destruct i as [|i]; [reflexivity|].
    simpl in Hi. cbn [nth skipn]. apply (IHg i). lia.
Qed.

(** X18.  [getRequiredExtensions] returns the extensions GLFW asks for, in
    GLFW's order, followed in a debug build by the debug report
    extension, and by nothing else; a release build requests exactly
    GLFW's extensions. *)
Theorem getRequiredExtensions_are_glfw_then_debug (drv : Driver)
  (glfwExtensions : list string) :
getRequiredExtensions drv glfwExtensions (length glfwExtensions) =
  glfwExtensions ++
  (if NDEBUG drv then [] else [VK_EXT_DEBUG_REPORT_EXTENSION_NAME]) /\
length (getRequiredExtensions drv glfwExtensions (length glfwExtensions)) =
  (length glfwExtensions + (if NDEBUG drv then 0 else 1))%nat.
Proof.
assert (E : getRequiredExtensions drv glfwExtensions (length glfwExtensions) =
  glfwExtensions ++
  (if NDEBUG drv then [] else [VK_EXT_DEBUG_REPORT_EXTENSION_NAME])).
{ unfold getRequiredExtensions, enableValidationLayers.
  rewrite getRequiredExtensions_loop_eq by (simpl; lia).
  cbn [skipn List.app]. rewrite firstn_all.
  destruct (NDEBUG drv); cbn [negb]; [now rewrite app_nil_r|reflexivity]. }
split; [exact E|]. rewrite E, length_app.
destruct (NDEBUG drv); reflexivity.
Qed.

(** X19.  A debug build on a loader without the debug report extension:
    when [vkGetInstanceProcAddr] finds no [vkCreateDebugReportCallbackEXT],
    the proxy answers [VK_ERROR_EXTENSION_NOT_PRESENT] without writing a
    handle, so (that code not being [VK_SUCCESS]) [main] dies of "failed
    to set up debug callback!" right after the proxy call; the callback
    wrapper stays empty and is never released, while the instance created
    before is. *)
Theorem missing_debug_extension_is_fatal {hdr : Header} (drv : Driver)
  (inst : Z) :
VK_ERROR_EXTENSION_NOT_PRESENT <> VK_SUCCESS ->
layers_missing drv = false ->
vkCreateInstance drv = (VK_SUCCESS, Some inst) ->
inst <> VK_NULL_HANDLE ->
enableValidationLayers drv = true ->
vkGetInstanceProcAddr_create drv = None ->
fatal drv "failed to set up debug callback!"
  (E_CreateDebugReportCallbackEXT inst) /\
(forall i c, ~ In (E_DestroyDebugReportCallbackEXT i c) (snd (main drv))) /\
In (E_vkDestroyInstance inst) (snd (main drv)).
Proof.
intros Herr Hl Hi Hn En Hp.
assert (Hres : proxy_result drv <> VK_SUCCESS)
  by (unfold proxy_result; now rewrite Hp).
assert (Hfst : fst (vkCreateInstance drv) = VK_SUCCESS) by now rewrite Hi.
split; [|split].
- pose proof (fatal_callback drv Hl Hfst En Hres) as F.
  unfold instance_handle in F. rewrite Hi in F. exact F.
- intros i c H. apply (in_main_release drv) in H; [|reflexivity].
  apply in_teardown in H. rewrite final_callback in H.
  destruct H as [[_ H]|[[Hc _]|[_ H]]]; try discriminate.
  apply Hc. destruct (callback_reached drv); [|reflexivity].
  unfold proxy_written. now rewrite Hp.
- apply (in_main_release drv); [reflexivity|].
  apply in_teardown. right. right. rewrite final_instance, Hl, Hi. cbn. auto.
Qed.

(* ================================================================== *)
(** * Further concrete executions *)
(* ================================================================== *)

Module MoreExamples.
Import Examples.

(** A release build on the same machine. *)
Definition release_machine (devices : list Z) : Driver :=
  {| NDEBUG := true;
     glfwCreateWindow := 7;
     glfwWindowShouldClose := 1;
     vkEnumerateInstanceExtensionProperties := ["VK_KHR_surface"%string];
     vkEnumerateInstanceLayerProperties := [];
     vkCreateInstance := (0, Some 100);
     vkGetInstanceProcAddr_create := None;
     vkEnumeratePhysicalDevices := devices;
     vkGetPhysicalDeviceProperties := fun _ => 0;
     vkGetPhysicalDeviceFeatures := fun _ => false;
     vkGetPhysicalDeviceQueueFamilyProperties := families;
     vkCreateDevice := fun _ => (0, Some 300);
     vkGetDeviceQueue := fun _ _ => 400 |}.

Lemma isDeviceSuitable_iff_graphics_family_witness :
Z.of_nat (length (families 20)) <= INT_MAX /\
(isDeviceSuitable (hdr := vulkan_1_0) (machine [20] 0) 20 = true <->
 exists f, In f (families 20) /\ queueCount f <> 0%N /\
           N.land (queueFlags f) 1 <> 0%N).
Proof.
assert (H : Z.of_nat (length (families 20)) <= INT_MAX)
  by (unfold INT_MAX; simpl; lia).
split; [exact H|].
exact (@isDeviceSuitable_iff_graphics_family vulkan_1_0 (machine [20] 0) 20 H).
Defined.

Lemma findQueueFamilies_index_is_valid_witness :
Z.of_nat (length (families 20)) <= INT_MAX /\
graphicsFamily (findQueueFamilies (hdr := vulkan_1_0) (machine [20] 0) 20)
  <> -1 /\
0 <= graphicsFamily (findQueueFamilies (hdr := vulkan_1_0) (machine [20] 0) 20)
  < Z.of_nat (length (families 20)).
Proof.
assert (H : Z.of_nat (length (families 20)) <= INT_MAX)
  by (unfold INT_MAX; simpl; lia).
assert (N : graphicsFamily
              (findQueueFamilies (hdr := vulkan_1_0) (machine [20] 0) 20)
            <> -1) by (vm_compute; discriminate).
split; [exact H|]. split; [exact N|].
exact (proj1 (@findQueueFamilies_index_is_valid vulkan_1_0
                (machine [20] 0) 20 H N)).
Defined.

Lemma pickPhysicalDevice_postcondition_witness :
physicalDevice (HelloTriangleApplication_ctor (hdr := vulkan_1_0)) = 0 /\
(fst (fst (pickPhysicalDevice (hdr := vulkan_1_0) (machine [10; 20; 30] 0)
             (HelloTriangleApplication_ctor (hdr := vulkan_1_0))))
   = Returned tt <->
 exists d, find (isDeviceSuitable (hdr := vulkan_1_0) (machine [10; 20; 30] 0))
             [10; 20; 30] = Some d /\ d <> 0).
Proof.
split; [reflexivity|].
exact (proj1 (@pickPhysicalDevice_postcondition vulkan_1_0
                (machine [10; 20; 30] 0)
                (HelloTriangleApplication_ctor (hdr := vulkan_1_0))
                eq_refl)).
Defined.



Lemma no_call_after_release_witness :
is_release (E_vkDestroyDevice 300) = true /\
is_release (E_vkDestroyInstance 100) = true.
Proof.
split; [reflexivity|].
apply (@no_call_after_release vulkan_1_0 (machine [10; 20; 30] 0)
         (firstn 27 (snd (main (hdr := vulkan_1_0) (machine [10; 20; 30] 0))))
         (E_vkDestroyDevice 300)
         [E_DestroyDebugReportCallbackEXT 100 200; E_vkDestroyInstance 100]).
- vm_compute. reflexivity.
- reflexivity.
- simpl. auto.
Defined.

Lemma release_build_skips_validation_witness :
NDEBUG (release_machine [20]) = true /\
In (E_vkCreateDevice 20)
   (snd (main (hdr := vulkan_1_0) (release_machine [20]))) /\
debug_only (E_vkCreateDevice 20) = false.
Proof.
assert (I : In (E_vkCreateDevice 20)
              (snd (main (hdr := vulkan_1_0) (release_machine [20]))))
  by (vm_compute; auto 20).
split; [reflexivity|]. split; [exact I|].
exact (@release_build_skips_validation vulkan_1_0 (release_machine [20])
         eq_refl (E_vkCreateDevice 20) I).
Defined.

Lemma logical_device_only_for_suitable_device_witness :
In (E_vkCreateDevice 20)
   (snd (main (hdr := vulkan_1_0) (machine [10; 20; 30] 0))) /\
isDeviceSuitable (hdr := vulkan_1_0) (machine [10; 20; 30] 0) 20 = true.
Proof.
assert (I : In (E_vkCreateDevice 20)
              (snd (main (hdr := vulkan_1_0) (machine [10; 20; 30] 0))))
  by (vm_compute; auto 30).
split; [exact I|].
exact (proj1 (proj2 (proj2
  (proj1 (@logical_device_only_for_suitable_device vulkan_1_0
            (machine [10; 20; 30] 0)) 20 I)))).
Defined.

(** A debug build on a loader that lacks the debug report extension. *)
Definition machine_without_debug_report : Driver :=
  {| NDEBUG := false;
     glfwCreateWindow := 7;
     glfwWindowShouldClose := 1;
     vkEnumerateInstanceExtensionProperties := [];
     vkEnumerateInstanceLayerProperties :=
       [{| layerName := "VK_LAYER_LUNARG_standard_validation" |}];
     vkCreateInstance := (0, Some 100);
     vkGetInstanceProcAddr_create := None;
     vkEnumeratePhysicalDevices := [20];
     vkGetPhysicalDeviceProperties := fun _ => 0;
     vkGetPhysicalDeviceFeatures := fun _ => false;
     vkGetPhysicalDeviceQueueFamilyProperties := families;
     vkCreateDevice := fun _ => (0, Some 300);
     vkGetDeviceQueue := fun _ _ => 400 |}.

Lemma missing_debug_extension_is_fatal_witness :
main (hdr := vulkan_1_0) machine_without_debug_report =
  (1,
   [E_glfwInit; E_glfwWindowHint; E_glfwWindowHint; E_glfwCreateWindow;
    E_vkEnumerateInstanceExtensionProperties;
    E_vkEnumerateInstanceExtensionProperties;
    E_cout "available extensions:";
    E_vkEnumerateInstanceLayerProperties;
    E_vkEnumerateInstanceLayerProperties;
    E_glfwGetRequiredInstanceExtensions; E_vkCreateInstance;
    E_CreateDebugReportCallbackEXT 100;
    E_cerr "failed to set up debug callback!";
    E_vkDestroyInstance 100]) /\
In (E_vkDestroyInstance 100)
   (snd (main (hdr := vulkan_1_0) machine_without_debug_report)).
Proof.
split; [vm_compute; reflexivity|].
apply (@missing_debug_extension_is_fatal vulkan_1_0
         machine_without_debug_report 100).
- simpl. lia.
- reflexivity.
- reflexivity.
- simpl. lia.
- reflexivity.
- reflexivity.
Defined.

End MoreExamples.
